(** * JMC front end: tokenizer, argument parser and class expander

    A shallow embedding of [src/jmc/tokenizer.py] and
    [src/jmc/flow_control/class_.py].

    Conventions of the embedding.
    - A Python [str] is a [string]; a character is an [ascii], read as a
      code point below 256.  Code points above 255 are outside the model.
    - A Python [int] is a [Z].
    - [Optional[X]] is [option X]; an attribute that holds [None] is [None].
    - A raised exception is the [Raise] case of [result]; the exception
      classes the code can raise are the constructors of [exn].
    - The [Tokenizer] object is a record; a method takes the record and
      returns the updated record next to its value.
    - The calls to [logger.debug] and [pprint] only print; they are left out. *)

From Stdlib Require Import ZArith String Ascii List Bool Lia.
From stdpp Require Import base option strings pretty gmap sorting.

Local Open Scope string_scope.
Local Open Scope Z_scope.

(** ** Exceptions and results *)

(** The exceptions of Python that the code meets.  [NonStrToken] is none of
    them: it marks the point where a run stores, as the text of a token, a
    value that has a length and is no [str].  The tokens of this development
    hold strings, and it follows such a run no further. *)
Inductive exn : Type :=
| JMCSyntaxException (msg : string)
| IndexError
| AttributeError
| TypeError
| ValueError
| NameError
| UnboundLocalError
| SyntaxError
| RecursionError
| NonStrToken.

Inductive result (A : Type) : Type :=
| Return (a : A)
| Raise (e : exn).

Arguments Return {A} a.
Arguments Raise {A} e.

#[global] Instance result_ret : MRet result := fun A a => Return a.

#[global] Instance result_fmap : FMap result := fun A B f r =>
  match r with
  | Return a => Return (f a)
  | Raise e => Raise e
  end.

#[global] Instance result_bind : MBind result := fun A B k r =>
  match r with
  | Return a => k a
  | Raise e => Raise e
  end.

(** ** The operations of Python's [str] and [list] that the code uses *)

Module Py.

Definition NL : ascii := ascii_of_nat 10.

(** [len(s)] *)
Definition len (s : string) : Z := Z.of_nat (String.length s).

(** [s + c] for a one-character [c] *)
Definition add_char (s : string) (c : ascii) : string := s +:+ String c EmptyString.

(** Truth value of a string: non-empty. *)
Definition truthy (s : string) : bool :=
  match s with
  | EmptyString => false
  | String _ _ => true
  end.

(** [s[:-1]] *)
Fixpoint drop_last (s : string) : string :=
  match s with
  | EmptyString => EmptyString
  | String c EmptyString => EmptyString
  | String c s' => String c (drop_last s')
  end.

(** [s[1:]] *)
Definition drop_first (s : string) : string :=
  match s with
  | EmptyString => EmptyString
  | String _ s' => s'
  end.

(** [s[1:-1]] *)
Definition strip_ends (s : string) : string := drop_last (drop_first s).

Fixpoint take (n : nat) (s : string) : string :=
  match n, s with
  | O, _ => EmptyString
  | S n', EmptyString => EmptyString
  | S n', String c s' => String c (take n' s')
  end.

(** [s[:n]]: a negative [n] counts from the end. *)
Definition slice_to (s : string) (n : Z) : string :=
  if 0 <=? n then take (Z.to_nat n) s
  else take (Z.to_nat (len s + n)) s.

(** [s.split(sep)] for a one-character [sep]; [cur] is the piece being
    read, already reversed into the right order. *)
Fixpoint split_go (sep : ascii) (cur : string) (s : string) : list string :=
  match s with
  | EmptyString => cur :: nil
  | String c s' =>
      if Ascii.eqb c sep then cur :: split_go sep EmptyString s'
      else split_go sep (add_char cur c) s'
  end.

Definition split (sep : ascii) (s : string) : list string :=
  split_go sep EmptyString s.

(** [l[i]]: a negative [i] counts from the end; out of range raises. *)
Definition index {A : Type} (l : list A) (i : Z) : result A :=
  let n := Z.of_nat (List.length l) in
  let j := if i <? 0 then i + n else i in
  if (j <? 0) || (n <=? j) then Raise IndexError
  else match nth_error l (Z.to_nat j) with
       | Some a => Return a
       | None => Raise IndexError
       end.

(** [s[0]] *)
Definition first_char (s : string) : result ascii :=
  match s with
  | EmptyString => Raise IndexError
  | String c _ => Return c
  end.

(** [s.count(c)] *)
Fixpoint count (c : ascii) (s : string) : Z :=
  match s with
  | EmptyString => 0
  | String d s' => (if Ascii.eqb d c then 1 else 0) + count c s'
  end.

(** [c in s] *)
Fixpoint contains (c : ascii) (s : string) : bool :=
  match s with
  | EmptyString => false
  | String d s' => Ascii.eqb d c || contains c s'
  end.

(** [s.find(c)]: the first position of [c], or [-1]. *)
Fixpoint find_from (c : ascii) (i : Z) (s : string) : Z :=
  match s with
  | EmptyString => -1
  | String d s' => if Ascii.eqb d c then i else find_from c (i + 1) s'
  end.

Definition find (c : ascii) (s : string) : Z := find_from c 0 s.

(** [s.rfind(c)]: the last position of [c], or [-1]. *)
Fixpoint rfind_from (c : ascii) (i : Z) (last : Z) (s : string) : Z :=
  match s with
  | EmptyString => last
  | String d s' =>
      rfind_from c (i + 1) (if Ascii.eqb d c then i else last) s'
  end.

Definition rfind (c : ascii) (s : string) : Z := rfind_from c 0 (-1) s.

(** [s.startswith(c)] *)
Definition startswith (c : ascii) (s : string) : bool :=
  match s with
  | EmptyString => false
  | String d _ => Ascii.eqb d c
  end.

(** [s.endswith(c)] *)
Fixpoint endswith (c : ascii) (s : string) : bool :=
  match s with
  | EmptyString => false
  | String d EmptyString => Ascii.eqb d c
  | String _ s' => endswith c s'
  end.

(** [c in l] for a list of characters *)
Definition mem (c : ascii) (l : list ascii) : bool :=
  existsb (Ascii.eqb c) l.

(** [re.match(r'\s+', c)] for a one-character [c], and the characters
    [str.strip()] removes: the code points below 256 that Python counts
    as white space. *)
Definition isspace (c : ascii) : bool :=
  let n := N_of_ascii c in
  ((9 <=? n) && (n <=? 13) || (28 <=? n) && (n <=? 32)
   || (n =? 133) || (n =? 160))%N.

(** [s.lstrip()] *)
Fixpoint lstrip (s : string) : string :=
  match s with
  | EmptyString => EmptyString
  | String c s' => if isspace c then lstrip s' else s
  end.

(** [s.rstrip()] *)
Fixpoint rstrip (s : string) : string :=
  match s with
  | EmptyString => EmptyString
  | String c s' =>
      match rstrip s' with
      | EmptyString => if isspace c then EmptyString else String c EmptyString
      | r => String c r
      end
  end.

(** [s.strip()] *)
Definition strip (s : string) : string := rstrip (lstrip s).

(** [str(n)] for an integer *)
Definition str (n : Z) : string := pretty n.

(** A value that [ast.literal_eval] returns, as far as the code looks at
    it: a [str]; another value that has a length ([bytes], a tuple, a list,
    a dict, a set); a value that has none (a number, a boolean, [None],
    [Ellipsis]), on which [len] raises [TypeError]. *)
Inductive literal : Type :=
| Str (s : string)
| Container
| Scalar.

End Py.

(** ** Tokens *)

Module TokenType.

Inductive t : Type :=
| keyword
| paren
| paren_round
| paren_square
| paren_curly
| string
| comment
| comma
| func.

#[global] Instance eq_dec : EqDecision t.
Proof. solve_decision. Defined.

End TokenType.

Module Token.

(** [token_type] is declared [TokenType]; the constructor is called with
    the scanner's [state], an [Optional[TokenType]], so the field holds an
    option. *)
Record t : Type := Build {
  token_type : option TokenType.t;
  line : Z;
  col : Z;
  string : String.string;
  length : Z
}.

(** [Token(token_type, line, col, string)]: [__post_init__] sets [length]. *)
Definition new (token_type : option TokenType.t) (line col : Z)
    (string : String.string) : t :=
  Build token_type line col string
    (if bool_decide (token_type = Some TokenType.string)
     then Py.len string + 2
     else Py.len string).

End Token.

Module Pos.

Record t : Type := Build {
  line : Z;
  col : Z
}.

End Pos.

Module Re.

Definition NEW_LINE : ascii := Py.NL.
Definition BACKSLASH : ascii := "\".
Definition SEMICOLON : ascii := ";".
Definition COMMA : ascii := ",".
Definition HASH : ascii := "#".
Definition SLASH : ascii := "/".

End Re.

Module Quote.

Definition SINGLE : ascii := "'".
Definition DOUBLE : ascii := ascii_of_nat 34.

End Quote.

Module Paren.

Definition L_ROUND : ascii := "(".
Definition R_ROUND : ascii := ")".
Definition L_SQUARE : ascii := "[".
Definition R_SQUARE : ascii := "]".
Definition L_CURLY : ascii := "{".
Definition R_CURLY : ascii := "}".

End Paren.

(** [PAREN_PAIR[c]]; a key that is absent raises [KeyError], which the
    code never reaches: the dictionary is read only at its three keys. *)
Definition PAREN_PAIR (c : ascii) : option ascii :=
  if Ascii.eqb c Paren.L_CURLY then Some Paren.R_CURLY
  else if Ascii.eqb c Paren.L_SQUARE then Some Paren.R_SQUARE
  else if Ascii.eqb c Paren.L_ROUND then Some Paren.R_ROUND
  else None.

(** ** The tokenizer object *)

Module Tokenizer.

Record t : Type := Build {
  raw_string : string;
  file_string : string;
  file_path : string;
  programs : list (list Token.t);
  line : Z;
  col : Z;
  state : option TokenType.t;
  token : string;
  token_pos : option Pos.t;
  keywords : list Token.t;
  list_of_tokens : list (list Token.t);
  quote : option ascii;
  is_escaped : bool;
  paren : option ascii;
  r_paren : option ascii;
  paren_count : option Z;
  is_string : bool;
  is_slash : bool
}.

Definition set_raw_string (v : string) (self : t) : t :=
  Build v (file_string self) (file_path self) (programs self) (line self) (col self) (state self) (token self) (token_pos self) (keywords self) (list_of_tokens self) (quote self) (is_escaped self) (paren self) (r_paren self) (paren_count self) (is_string self) (is_slash self).

Definition set_file_string (v : string) (self : t) : t :=
  Build (raw_string self) v (file_path self) (programs self) (line self) (col self) (state self) (token self) (token_pos self) (keywords self) (list_of_tokens self) (quote self) (is_escaped self) (paren self) (r_paren self) (paren_count self) (is_string self) (is_slash self).

Definition set_file_path (v : string) (self : t) : t :=
  Build (raw_string self) (file_string self) v (programs self) (line self) (col self) (state self) (token self) (token_pos self) (keywords self) (list_of_tokens self) (quote self) (is_escaped self) (paren self) (r_paren self) (paren_count self) (is_string self) (is_slash self).

Definition set_programs (v : list (list Token.t)) (self : t) : t :=
  Build (raw_string self) (file_string self) (file_path self) v (line self) (col self) (state self) (token self) (token_pos self) (keywords self) (list_of_tokens self) (quote self) (is_escaped self) (paren self) (r_paren self) (paren_count self) (is_string self) (is_slash self).

Definition set_line (v : Z) (self : t) : t :=
  Build (raw_string self) (file_string self) (file_path self) (programs self) v (col self) (state self) (token self) (token_pos self) (keywords self) (list_of_tokens self) (quote self) (is_escaped self) (paren self) (r_paren self) (paren_count self) (is_string self) (is_slash self).

Definition set_col (v : Z) (self : t) : t :=
  Build (raw_string self) (file_string self) (file_path self) (programs self) (line self) v (state self) (token self) (token_pos self) (keywords self) (list_of_tokens self) (quote self) (is_escaped self) (paren self) (r_paren self) (paren_count self) (is_string self) (is_slash self).

Definition set_state (v : option TokenType.t) (self : t) : t :=
  Build (raw_string self) (file_string self) (file_path self) (programs self) (line self) (col self) v (token self) (token_pos self) (keywords self) (list_of_tokens self) (quote self) (is_escaped self) (paren self) (r_paren self) (paren_count self) (is_string self) (is_slash self).

Definition set_token (v : string) (self : t) : t :=
  Build (raw_string self) (file_string self) (file_path self) (programs self) (line self) (col self) (state self) v (token_pos self) (keywords self) (list_of_tokens self) (quote self) (is_escaped self) (paren self) (r_paren self) (paren_count self) (is_string self) (is_slash self).

Definition set_token_pos (v : option Pos.t) (self : t) : t :=
  Build (raw_string self) (file_string self) (file_path self) (programs self) (line self) (col self) (state self) (token self) v (keywords self) (list_of_tokens self) (quote self) (is_escaped self) (paren self) (r_paren self) (paren_count self) (is_string self) (is_slash self).

Definition set_keywords (v : list Token.t) (self : t) : t :=
  Build (raw_string self) (file_string self) (file_path self) (programs self) (line self) (col self) (state self) (token self) (token_pos self) v (list_of_tokens self) (quote self) (is_escaped self) (paren self) (r_paren self) (paren_count self) (is_string self) (is_slash self).

Definition set_list_of_tokens (v : list (list Token.t)) (self : t) : t :=
  Build (raw_string self) (file_string self) (file_path self) (programs self) (line self) (col self) (state self) (token self) (token_pos self) (keywords self) v (quote self) (is_escaped self) (paren self) (r_paren self) (paren_count self) (is_string self) (is_slash self).

Definition set_quote (v : option ascii) (self : t) : t :=
  Build (raw_string self) (file_string self) (file_path self) (programs self) (line self) (col self) (state self) (token self) (token_pos self) (keywords self) (list_of_tokens self) v (is_escaped self) (paren self) (r_paren self) (paren_count self) (is_string self) (is_slash self).

Definition set_is_escaped (v : bool) (self : t) : t :=
  Build (raw_string self) (file_string self) (file_path self) (programs self) (line self) (col self) (state self) (token self) (token_pos self) (keywords self) (list_of_tokens self) (quote self) v (paren self) (r_paren self) (paren_count self) (is_string self) (is_slash self).

Definition set_paren (v : option ascii) (self : t) : t :=
  Build (raw_string self) (file_string self) (file_path self) (programs self) (line self) (col self) (state self) (token self) (token_pos self) (keywords self) (list_of_tokens self) (quote self) (is_escaped self) v (r_paren self) (paren_count self) (is_string self) (is_slash self).

Definition set_r_paren (v : option ascii) (self : t) : t :=
  Build (raw_string self) (file_string self) (file_path self) (programs self) (line self) (col self) (state self) (token self) (token_pos self) (keywords self) (list_of_tokens self) (quote self) (is_escaped self) (paren self) v (paren_count self) (is_string self) (is_slash self).

Definition set_paren_count (v : option Z) (self : t) : t :=
  Build (raw_string self) (file_string self) (file_path self) (programs self) (line self) (col self) (state self) (token self) (token_pos self) (keywords self) (list_of_tokens self) (quote self) (is_escaped self) (paren self) (r_paren self) v (is_string self) (is_slash self).

Definition set_is_string (v : bool) (self : t) : t :=
  Build (raw_string self) (file_string self) (file_path self) (programs self) (line self) (col self) (state self) (token self) (token_pos self) (keywords self) (list_of_tokens self) (quote self) (is_escaped self) (paren self) (r_paren self) (paren_count self) v (is_slash self).

Definition set_is_slash (v : bool) (self : t) : t :=
  Build (raw_string self) (file_string self) (file_path self) (programs self) (line self) (col self) (state self) (token self) (token_pos self) (keywords self) (list_of_tokens self) (quote self) (is_escaped self) (paren self) (r_paren self) (paren_count self) (is_string self) v.

(** What [parse] returns: the list of statements when [expect_semicolon]
    holds, the first statement otherwise. *)
Inductive parsed : Type :=
| Program (statements : list (list Token.t))
| Statement (tokens : list Token.t).

(** How one round of the loop over the characters ends: at a [continue],
    or at the end of the loop body. *)
Inductive flow : Type :=
| Continue (self : t)
| Next (self : t).

Definition NEW_LINE_str : string := String Re.NEW_LINE EmptyString.

(** [self.raw_string.split(Re.NEW_LINE)[line-1]] *)
Definition source_line (self : t) (line : Z) : result string :=
  Py.index (Py.split Re.NEW_LINE (raw_string self)) (line - 1).

(** [raise JMCSyntaxException(f"In {self.file_path}\n{message}\n{excerpt} <-")];
    reading the excerpt can itself raise. *)
Definition syntax_error {A : Type} (self : t) (message : string)
    (excerpt : result string) : result A :=
  e ← excerpt;
  Raise (JMCSyntaxException
           ("In " +:+ file_path self +:+ NEW_LINE_str +:+ message
            +:+ NEW_LINE_str +:+ e +:+ " <-")).

Definition at_line_col (what : string) (line col : Z) : string :=
  what +:+ " at line " +:+ Py.str line +:+ " col " +:+ Py.str col +:+ ".".

Definition unescaped_line_break {A : Type} (self : t) : result A :=
  syntax_error self
    ("String literal at line " +:+ Py.str (line self)
     +:+ " contains an unescaped line break.")
    (source_line self (line self)).

Definition append_token (self : t) : result t :=
  match token_pos self with
  | None => Raise AttributeError
  | Some pos =>
      let self :=
        set_keywords
          (keywords self ++
           [Token.new (state self) (Pos.line pos) (Pos.col pos) (token self)])
          self in
      let self := set_token EmptyString self in
      let self := set_token_pos None self in
      let self := set_state None self in
      Return self
  end.

Definition append_keywords (self : t) : t :=
  if negb (Z.of_nat (List.length (keywords self)) =? 0) then
    let self := set_list_of_tokens (list_of_tokens self ++ [keywords self]) self in
    let self := set_keywords [] self in
    self
  else self.

Definition state_is (self : t) (k : TokenType.t) : bool :=
  bool_decide (state self = Some k).

Section Parse.

(** [ast.literal_eval] on the text that [self.token] holds when a string
    literal closes: the value, or the exception it raises.  The text is the
    literal with its quotes, behind whatever a comment has left in
    [self.token], so the value need not be a [str]. *)
Variable literal_eval : string -> result Py.literal.

Variable expect_semicolon : bool.

(** The branch [if char == Re.NEW_LINE]. *)
Definition on_new_line (self : t) (char : ascii) : result t :=
  self ←
    (if state_is self TokenType.string then unescaped_line_break self
     else if state_is self TokenType.comment then Return (set_state None self)
     else if state_is self TokenType.keyword then append_token self
     else if state_is self TokenType.paren then
       Return (set_token (Py.add_char (token self) char) self)
     else Return self);
  let self := set_line (line self + 1) self in
  let self := set_col 0 self in
  Return self.

(** The branch [if self.state == TokenType.keyword]. *)
Definition in_keyword (self : t) (char : ascii) : result flow :=
  if state_is self TokenType.keyword then
    if Py.mem char
         [Quote.SINGLE; Quote.DOUBLE; Paren.L_CURLY; Paren.L_ROUND;
          Paren.L_SQUARE; Re.SEMICOLON; Re.COMMA]
       || Py.isspace char
    then self ← append_token self; Return (Next self)
    else Return (Continue (set_token (Py.add_char (token self) char) self))
  else Return (Next self).

(** The branch [if self.state == None]. *)
Definition in_none (self : t) (char : ascii) : result flow :=
  if Py.mem char [Quote.SINGLE; Quote.DOUBLE] then
    let self := set_state (Some TokenType.string) self in
    let self := set_token_pos (Some (Pos.Build (line self) (col self))) self in
    let self := set_quote (Some char) self in
    let self := set_token (Py.add_char (token self) char) self in
    Return (Next self)
  else if Py.isspace char then Return (Continue self)
  else if Ascii.eqb char Re.SEMICOLON then Return (Next (append_keywords self))
  else if Py.mem char [Paren.L_CURLY; Paren.L_ROUND; Paren.L_SQUARE] then
    let self := set_state (Some TokenType.paren) self in
    let self := set_token (Py.add_char (token self) char) self in
    let self := set_token_pos (Some (Pos.Build (line self) (col self))) self in
    let self := set_paren (Some char) self in
    let self := set_r_paren (PAREN_PAIR char) self in
    let self := set_paren_count (Some 0) self in
    Return (Next self)
  else if Py.mem char [Paren.R_CURLY; Paren.R_ROUND; Paren.R_SQUARE] then
    syntax_error self
      (at_line_col "Unexpected bracket" (line self) (col self))
      (l ← source_line self (line self); Return (Py.slice_to l (col self)))
  else if Ascii.eqb char Re.HASH && (col self =? 1) then
    Return (Next (set_state (Some TokenType.comment) self))
  else if Ascii.eqb char Re.COMMA then
    let self := set_token (Py.add_char (token self) char) self in
    let self := set_token_pos (Some (Pos.Build (line self) (col self))) self in
    let self := set_state (Some TokenType.comma) self in
    self ← append_token self;
    Return (Next self)
  else
    let self := set_state (Some TokenType.keyword) self in
    let self := set_token_pos (Some (Pos.Build (line self) (col self))) self in
    let self := set_token (Py.add_char (token self) char) self in
    Return (Next self).

(** [self.append_token()] when [self.token] holds a value without a
    length: the arguments of [Token] are read, then [len(self.string)] in
    [__post_init__] raises. *)
Definition token_of_scalar {A : Type} (self : t) : result A :=
  match token_pos self with
  | None => Raise AttributeError
  | Some _ => Raise TypeError
  end.

(** [self.append_token()] when [self.token] holds a value with a length
    that is no [str]: the code builds the token and goes on. *)
Definition token_of_container {A : Type} (self : t) : result A :=
  match token_pos self with
  | None => Raise AttributeError
  | Some _ => Raise NonStrToken
  end.

(** The branch [elif self.state == TokenType.string]. *)
Definition in_string (self : t) (char : ascii) : result flow :=
  let self := set_token (Py.add_char (token self) char) self in
  if Ascii.eqb char Re.BACKSLASH && negb (is_escaped self) then
    Return (Next (set_is_escaped true self))
  else if bool_decide (Some char = quote self) && negb (is_escaped self) then
    decoded ← literal_eval (token self);
    match decoded with
    | Py.Str decoded =>
        let self := set_token decoded self in
        self ← append_token self;
        Return (Next self)
    | Py.Scalar => token_of_scalar self
    | Py.Container => token_of_container self
    end
  else if is_escaped self then Return (Next (set_is_escaped false self))
  else Return (Next self).

(** The branch [elif self.state == TokenType.paren]. *)
Definition in_paren (self : t) (char : ascii) : result flow :=
  let self := set_token (Py.add_char (token self) char) self in
  if is_string self then
    if Ascii.eqb char Re.BACKSLASH && negb (is_escaped self) then
      Return (Next (set_is_escaped true self))
    else if bool_decide (Some char = quote self) && negb (is_escaped self) then
      Return (Next (set_is_string false self))
    else if is_escaped self then Return (Next (set_is_escaped false self))
    else Return (Next self)
  else if bool_decide (Some char = r_paren self)
          && bool_decide (paren_count self = Some 0) then
    let '(self, is_end) :=
      if bool_decide (paren self = Some Paren.L_CURLY) then
        (set_state (Some TokenType.paren_curly) self, true)
      else if bool_decide (paren self = Some Paren.L_ROUND) then
        (set_state (Some TokenType.paren_round) self, false)
      else if bool_decide (paren self = Some Paren.L_SQUARE) then
        (set_state (Some TokenType.paren_square) self, false)
      else (self, false) in
    self ← append_token self;
    let self :=
      if is_end && expect_semicolon then append_keywords self else self in
    Return (Continue self)
  else if bool_decide (Some char = paren self) then
    match paren_count self with
    | Some n => Return (Next (set_paren_count (Some (n + 1)) self))
    | None => Raise TypeError
    end
  else if bool_decide (Some char = r_paren self) then
    match paren_count self with
    | Some n => Return (Next (set_paren_count (Some (n - 1)) self))
    | None => Raise TypeError
    end
  else if Py.mem char [Quote.SINGLE; Quote.DOUBLE] then
    let self := set_is_string true self in
    let self := set_quote (Some char) self in
    Return (Next self)
  else Return (Next self).

(** The chain [if self.state == None: ... elif ... TokenType.comment: pass]. *)
Definition dispatch (self : t) (char : ascii) : result flow :=
  if bool_decide (state self = None) then in_none self char
  else if state_is self TokenType.string then in_string self char
  else if state_is self TokenType.paren then in_paren self char
  else Return (Next self).

(** One round of [for char in string]. *)
Definition step (self : t) (char : ascii) : result t :=
  let self := set_col (col self + 1) self in
  if negb expect_semicolon && Ascii.eqb char Re.SEMICOLON then
    syntax_error self
      (at_line_col "Unexpected semicolon(;)" (line self) (col self))
      (l ← source_line self (line self); Return (Py.slice_to l (col self)))
  else if Ascii.eqb char Re.NEW_LINE then on_new_line self char
  else if Ascii.eqb char Re.SLASH && is_slash self
          && negb (state_is self TokenType.string) then
    let self := set_state (Some TokenType.comment) self in
    let self := set_token (Py.drop_last (token self)) self in
    Return self
  else
    f ← in_keyword self char;
    match f with
    | Continue self => Return self
    | Next self =>
        f ← dispatch self char;
        match f with
        | Continue self => Return self
        | Next self => Return (set_is_slash (Ascii.eqb char Re.SLASH) self)
        end
    end.

(** [for char in string: ...] *)
Fixpoint scan (self : t) (string : string) : result t :=
  match string with
  | EmptyString => Return self
  | String char rest => self ← step self char; scan self rest
  end.

(** The assignments at the head of [parse]. *)
Definition reset (self : t) (line col : Z) : t :=
  let self := set_list_of_tokens [] self in
  let self := set_line line self in
  let self := set_col (col - 1) self in
  let self := set_keywords [] self in
  let self := set_state None self in
  let self := set_token EmptyString self in
  let self := set_token_pos None self in
  let self := set_quote None self in
  let self := set_is_escaped false self in
  let self := set_paren None self in
  let self := set_r_paren None self in
  let self := set_paren_count None self in
  let self := set_is_string false self in
  let self := set_is_slash false self in
  self.

(** After the loop: [if self.state == TokenType.keyword: ...]. *)
Definition flush (self : t) : result t :=
  if state_is self TokenType.keyword then
    self ← (if negb (String.eqb (token self) EmptyString)
            then append_token self else Return self);
    Return (if negb expect_semicolon then append_keywords self else self)
  else Return self.

(** After the loop: [if self.state == TokenType.string: raise ...] and its
    two [elif]s. *)
Definition check_closed (self : t) : result unit :=
  if state_is self TokenType.string then unescaped_line_break self
  else if state_is self TokenType.paren then
    match token_pos self with
    | None => Raise AttributeError
    | Some pos =>
        syntax_error self
          ("Bracket at line " +:+ Py.str (Pos.line pos) +:+ " col "
           +:+ Py.str (Pos.col pos) +:+ " was never closed.")
          (l ← source_line self (Pos.line pos);
           Return (Py.slice_to l (Pos.col pos)))
    end
  else if negb (Z.of_nat (List.length (keywords self)) =? 0) then
    last ← Py.index (keywords self) (-1);
    let c := Token.col last + Token.length last in
    syntax_error self
      (at_line_col "Expected semicolon(;)" (Token.line last) c)
      (l ← source_line self (Token.line last); Return (Py.slice_to l c))
  else Return tt.

(** After the loop: the two [return]s. *)
Definition returned (self : t) : result parsed :=
  if expect_semicolon then Return (Program (list_of_tokens self))
  else first ← Py.index (list_of_tokens self) 0; Return (Statement first).

(** The statements of [parse] after the loop. *)
Definition finish (self : t) : result (parsed * t) :=
  self ← flush self;
  _ ← check_closed self;
  p ← returned self;
  Return (p, self).

Definition parse (self : t) (string : string) (line col : Z)
    : result (parsed * t) :=
  self ← scan (reset self line col) string;
  finish self.

End Parse.

(** The local variables of [parse_func_args] that its loop and its two
    closures assign.  [last_token] is unbound until first assigned. *)
Record locals : Type := Locals {
  args : list Token.t;
  kwargs : gmap string Token.t;
  key : string;
  arg : string;
  arrow_func_state : Z;
  last_token : option Token.t
}.

Definition set_args (v : list Token.t) (l : locals) : locals :=
  Locals v (kwargs l) (key l) (arg l) (arrow_func_state l) (last_token l).

Definition set_kwargs (v : gmap string Token.t) (l : locals) : locals :=
  Locals (args l) v (key l) (arg l) (arrow_func_state l) (last_token l).

Definition set_key (v : string) (l : locals) : locals :=
  Locals (args l) (kwargs l) v (arg l) (arrow_func_state l) (last_token l).

Definition set_arg (v : string) (l : locals) : locals :=
  Locals (args l) (kwargs l) (key l) v (arrow_func_state l) (last_token l).

Definition set_arrow_func_state (v : Z) (l : locals) : locals :=
  Locals (args l) (kwargs l) (key l) (arg l) v (last_token l).

Definition set_last_token (v : option Token.t) (l : locals) : locals :=
  Locals (args l) (kwargs l) (key l) (arg l) (arrow_func_state l) v.

(** The closure [add_arg]. *)
Definition add_arg (self : t) (l : locals) (token : Token.t) : result locals :=
  if negb (bool_decide (kwargs l = ∅)) then
    syntax_error self
      (at_line_col "Positional argument follows keyword argument"
         (Token.line token) (Token.col token + 1))
      (s ← source_line self (Token.line token);
       Return (Py.slice_to s (Token.col token + 1)))
  else
    let l :=
      set_args
        (args l ++
         [Token.new (Token.token_type token) (Token.line token)
            (Token.col token) (arg l)])
        l in
    let l := set_arg EmptyString l in
    Return l.

(** The closure [add_key]; the first test reads [key[0]]. *)
Definition add_key (self : t) (l : locals) (token : Token.t) : result locals :=
  k0 ← Py.first_char (key l);
  if Py.mem k0 [Paren.L_CURLY; Paren.L_ROUND; Paren.L_SQUARE] then
    match last_token l with
    | None => Raise NameError
    | Some last =>
        syntax_error self
          (at_line_col ("Invalid key(" +:+ key l +:+ ")")
             (Token.line last) (Token.col last))
          (s ← source_line self (Token.line last);
           Return (Py.slice_to s (Token.col last)))
    end
  else if String.eqb (key l) EmptyString then
    syntax_error self
      (at_line_col "Empty" (Token.line token) (Token.col token))
      (s ← source_line self (Token.line token);
       Return (Py.slice_to s (Token.col token)))
  else if bool_decide (is_Some (kwargs l !! key l)) then
    syntax_error self
      (at_line_col ("Duplicated key(" +:+ key l +:+ ")")
         (Token.line token) (Token.col token))
      (s ← source_line self (Token.line token);
       Return (Py.slice_to s (Token.col token)))
  else
    let l :=
      set_kwargs
        (<[key l := Token.new (Token.token_type token) (Token.line token)
                      (Token.col token) (arg l)]> (kwargs l))
        l in
    let l := set_key EmptyString l in
    let l := set_arg EmptyString l in
    Return l.

(** How one round of [for token in keywords] ends. *)
Inductive round : Type :=
| Skip (l : locals)
| Fall (l : locals).

Definition is_type (token : Token.t) (k : TokenType.t) : bool :=
  bool_decide (Token.token_type token = Some k).

Definition EQUAL : ascii := "=".

(** The branch [if arrow_func_state > 0]. *)
Definition in_arrow (self : t) (l : locals) (token : Token.t) : result round :=
  if 0 <? arrow_func_state l then
    if arrow_func_state l =? 1 then
      if String.eqb (Token.string token) "=>"
         && is_type token TokenType.keyword then
        let l := set_arrow_func_state 2 l in
        let l := set_last_token (Some token) l in
        Return (Skip l)
      else
        match last_token l with
        | None => Raise UnboundLocalError
        | Some last =>
            let l := set_arg (Token.string last) l in
            l ← (if Py.truthy (key l) then add_key self l last else Return l);
            let l := set_arrow_func_state 0 l in
            Return (Skip l)
        end
    else if arrow_func_state l =? 2 then
      if is_type token TokenType.paren_curly then
        let new_token :=
          Token.new (Some TokenType.func) (Token.line token) (Token.col token)
            (Py.strip_ends (Token.string token)) in
        let l := set_arg (Token.string new_token) l in
        l ← (if Py.truthy (key l) then add_key self l new_token else Return l);
        let l := set_last_token (Some new_token) l in
        let l := set_arrow_func_state 0 l in
        Return (Skip l)
      else
        syntax_error self
          (at_line_col "Expected {" (Token.line token) (Token.col token))
          (s ← source_line self (Token.line token);
           Return (Py.slice_to s (Token.col token)))
    else Return (Fall l)
  else Return (Fall l).

(** The branch [if token.token_type == TokenType.keyword]. *)
Definition on_keyword (self : t) (l : locals) (token : Token.t) : result locals :=
  if Py.truthy (arg l) then
    if Py.startswith EQUAL (Token.string token) then
      let l := set_key (arg l) l in
      let l := set_arg (Py.drop_first (Token.string token)) l in
      if Py.truthy (arg l) then add_key self l token else Return l
    else
      syntax_error self
        (at_line_col "Unexpected token" (Token.line token) (Token.col token))
        (s ← source_line self (Token.line token);
         Return (Py.slice_to s (Token.col token + Token.length token)))
  else if Py.truthy (key l) then
    let l := set_arg (Token.string token) l in
    if Py.contains EQUAL (Token.string token) then
      let col := Token.col token + Py.find EQUAL (Token.string token) in
      syntax_error self
        (at_line_col "Duplicated equal sign(=)" (Token.line token) (col + 1))
        (s ← source_line self (Token.line token);
         Return (Py.slice_to s (col + 1)))
    else add_key self l token
  else
    let equal_sign_count := Py.count EQUAL (Token.string token) in
    if 1 <? equal_sign_count then
      let col := Token.col token + Py.rfind EQUAL (Token.string token) + 1 in
      syntax_error self
        (at_line_col "Duplicated equal sign(=)" (Token.line token) col)
        (s ← source_line self (Token.line token); Return (Py.slice_to s col))
    else if Py.endswith EQUAL (Token.string token) then
      Return (set_key (Py.drop_last (Token.string token)) l)
    else if Py.contains EQUAL (Token.string token) then
      match Py.split EQUAL (Token.string token) with
      | [k; a] =>
          let l := set_key k l in
          let l := set_arg a l in
          add_key self l token
      | _ => Raise ValueError
      end
    else Return (set_arg (Token.string token) l).

(** One round of [for token in keywords]. *)
Definition arg_step (self : t) (l : locals) (token : Token.t) : result locals :=
  r ← in_arrow self l token;
  match r with
  | Skip l => Return l
  | Fall l =>
      l ←
        (if is_type token TokenType.keyword then on_keyword self l token
         else if is_type token TokenType.comma then
           let l := set_arrow_func_state 0 l in
           if Py.truthy (arg l) then
             match last_token l with
             | None => Raise UnboundLocalError
             | Some last => add_arg self l last
             end
           else Return l
         else if is_type token TokenType.paren_round
                 || is_type token TokenType.paren_curly
                 || is_type token TokenType.paren_square then
           if String.eqb (Token.string token) "()" then
             Return (set_arrow_func_state 1 l)
           else
             let l := set_arg (Token.string token) l in
             if Py.truthy (key l) then add_key self l token else Return l
         else if is_type token TokenType.string then
           let l := set_arg (Token.string token) l in
           if Py.truthy (key l) then add_key self l token else Return l
         else Return l);
      Return (set_last_token (Some token) l)
  end.

(** [for token in keywords: ...]; the loop variable [token] keeps its last
    value after the loop, and the parameter's value if the list is empty. *)
Fixpoint arg_loop (self : t) (l : locals) (token : Token.t)
    (keywords : list Token.t) : result (locals * Token.t) :=
  match keywords with
  | [] => Return (l, token)
  | token :: rest => l ← arg_step self l token; arg_loop self l token rest
  end.

Section Methods.

Variable literal_eval : string -> result Py.literal.

(** [Tokenizer(raw_string, file_path_str, line, col, file_string)].  The
    attributes that [parse] assigns do not exist before its call; the
    record starts them at empty values, all of which [parse] overwrites. *)
Definition init (raw_string file_path_str : string) (line col : Z)
    (file_string : option string) : result t :=
  let self :=
    Build raw_string (default raw_string file_string) file_path_str
      [] 0 0 None EmptyString None [] [] None false None None None false false in
  '(p, self) ← parse literal_eval true self raw_string line col;
  match p with
  | Program statements => Return (set_programs statements self)
  | Statement _ => Raise TypeError
  end.

Definition parse_func_args (self : t) (token : Token.t)
    : result ((list Token.t * gmap string Token.t) * t) :=
  if negb (is_type token TokenType.paren_round) then
    syntax_error self
      (at_line_col "Expected (" (Token.line token) (Token.col token))
      (source_line self (line self))
  else
    '(p, self) ←
      parse literal_eval false self (Py.strip_ends (Token.string token))
        (Token.line token) (Token.col token);
    match p with
    | Program _ => Raise TypeError
    | Statement keywords =>
        let l := Locals [] ∅ EmptyString EmptyString 0 None in
        '(l, token) ← arg_loop self l token keywords;
        l ← (if Py.truthy (arg l) then add_arg self l token else Return l);
        Return ((args l, kwargs l), self)
    end.

End Methods.

End Tokenizer.

(** ** The class expander *)

Module Class.

(** A piece [p*] of a pattern followed by the rest [k] of the pattern, as
    the engine of [regex] tries them: [p*] first takes every character of
    [p] it can, and gives them back one at a time as long as [k], called on
    the text taken and the text left, does not match. *)
Fixpoint star {A : Type} (p : ascii -> bool) (s : string)
    (k : string -> string -> option A) : option A :=
  match s with
  | EmptyString => k EmptyString EmptyString
  | String c s' =>
      if p c then
        match star p s' (fun taken left => k (String c taken) left) with
        | Some r => Some r
        | None => k EmptyString s
        end
      else k EmptyString s
  end.

(** Modelled from the Unicode character database, for the worked inputs:
    the code points below 256 with the property White_Space, which is what
    the documentation of [regex] gives for [\s] in a [str] pattern.  The
    separators 28 to 31, which [str.strip] removes, are not among them. *)
Definition white_space (c : ascii) : bool :=
  let n := N_of_ascii c in
  ((9 <=? n) && (n <=? 13) || (n =? 32) || (n =? 133) || (n =? 160))%N.

(** Modelled from the Unicode character database, for the worked inputs:
    the code points below 256 that are alphabetic, a decimal digit or the
    underscore, which is what the documentation of [regex] gives for [\w]
    in a [str] pattern. *)
Definition word_character (c : ascii) : bool :=
  let n := N_of_ascii c in
  ((48 <=? n) && (n <=? 57) || (65 <=? n) && (n <=? 90) || (n =? 95)
   || (97 <=? n) && (n <=? 122) || (n =? 170) || (n =? 181) || (n =? 186)
   || (192 <=? n) && (n <=? 214) || (216 <=? n) && (n <=? 246)
   || (248 <=? n) && (n <=? 255))%N.

(** [s] without the head [pre], when it starts with it. *)
Fixpoint strip_prefix (pre s : string) : option string :=
  match pre, s with
  | EmptyString, _ => Some s
  | String a pre', String b s' =>
      if Ascii.eqb a b then strip_prefix pre' s' else None
  | String _ _, EmptyString => None
  end.

(** Modelled from the spec: [BracketRegex.match_bracket] lives in
    [jmc/utils], which is not among the sources.  The specification calls
    it a balanced-brace matcher: from just after an opening brace, the text
    up to the closing brace that brings the depth back to zero, and the
    text after it. *)
Fixpoint close_at (depth : nat) (s : string) : option (string * string) :=
  match s with
  | EmptyString => None
  | String c s' =>
      if Ascii.eqb c "}" then
        match depth with
        | O => Some (EmptyString, s')
        | S d => '(body, rest) ← close_at d s'; Some (String c body, rest)
        end
      else if Ascii.eqb c "{" then
        '(body, rest) ← close_at (S depth) s'; Some (String c body, rest)
      else '(body, rest) ← close_at depth s'; Some (String c body, rest)
  end.

(** Modelled from the spec: the group of [match_bracket('{}', 2)] followed
    by [BracketRegex.compile], as the body between the outer braces. *)
Definition match_bracket (s : string) : option (string * string) :=
  match s with
  | String c s' => if Ascii.eqb c "{" then close_at 0 s' else None
  | EmptyString => None
  end.

(** The pattern in words: a text whose braces are balanced, read with
    [depth] braces open before it. *)
Fixpoint balanced_from (depth : nat) (s : string) : bool :=
  match s with
  | EmptyString => (depth =? 0)%nat
  | String c s' =>
      if Ascii.eqb c "{" then balanced_from (S depth) s'
      else if Ascii.eqb c "}" then
        match depth with
        | O => false
        | S d => balanced_from d s'
        end
      else balanced_from depth s'
  end.

Definition balanced (s : string) : bool := balanced_from 0 s.

(** Every character of [s] is in the class [p]. *)
Fixpoint all_chars (p : ascii -> bool) (s : string) : bool :=
  match s with
  | EmptyString => true
  | String c s' => p c && all_chars p s'
  end.

Section Expander.

(** The [DataPack] object and its method [process_function], the
    function-level expander: both live outside the sources. *)
Variable DataPack : Type.
Variable process_function :
  DataPack -> string -> string -> result (string * DataPack).

(** The classes [\s] and [\w] of a [str] pattern, which the [regex]
    library decides: the characters each one matches. *)
Variable space : ascii -> bool.
Variable word : ascii -> bool.

(** The last group of [class_REGEX], the one [match_bracket('{}', 2)]
    builds, with [BracketRegex.compile] applied: on a text, the class
    content and the text after the group.  [match_bracket] above is the
    reading the specification gives of it. *)
Variable bracket_group : string -> option (string * string).

(** The characters of [[\w\._]]. *)
Definition name_char (c : ascii) : bool :=
  word c || Ascii.eqb c "." || Ascii.eqb c "_".

(** A match of [class_REGEX] at the head of [line]: the class name, the
    class content, and the text after the match.  The pattern is
    [^class\s*([\w\._]+)\s*] and the bracket group; the name is the text
    that [[\w\._]+] has taken when the group matches. *)
Definition match_class (line : string) : option (string * string * string) :=
  s ← strip_prefix "class" line;
  star space s (fun _ s =>
    star name_char s (fun class_name s =>
      if Py.truthy class_name then
        star space s (fun _ s =>
          '(class_content, rest) ← bracket_group s;
          Some (class_name, class_content, rest))
      else None)).

(** [regex.subn(class_REGEX, class_found, line)]: the pattern starts with
    [^], so it matches at most once, at the head. *)
Definition subn_class (self : DataPack) (line prefix : string)
    : result (string * nat * DataPack) :=
  match match_class line with
  | Some (class_name, class_content, rest) =>
      '(remaining_line, self) ←
        process_function self class_content
          (prefix +:+ class_name +:+ ".");
      Return (remaining_line +:+ rest, 1%nat, self)
  | None => Return (line, 0%nat, self)
  end.

(** [process_class(self, line, prefix)].  [depth] is the number of nested
    calls the interpreter still allows. *)
Fixpoint process_class (depth : nat) (self : DataPack) (line prefix : string)
    : result (string * DataPack) :=
  match depth with
  | O => Raise RecursionError
  | S depth =>
      let line := Py.strip line in
      '(line, success, self) ← subn_class self line prefix;
      if negb (success =? 0)%nat then process_class depth self line prefix
      else Return (line, self)
  end.

End Expander.

(** A function-level expander for the worked inputs: it records the body
    and the prefix it is called with and leaves no text behind. *)
Definition recorder (self : list (string * string)) (body prefix : string)
    : result (string * list (string * string)) :=
  Return (EmptyString, (self ++ [(body, prefix)])%list).

End Class.

(** A decoder that only removes the quotes, for texts without a backslash. *)
Definition unquote (s : string) : result Py.literal :=
  Return (Py.Str (Py.strip_ends s)).


(** The value of a method call, without the object it leaves behind. *)
Definition value {A : Type} (r : result (A * Tokenizer.t)) : result A :=
  '(a, _) ← r; Return a.

Definition NL : string := Tokenizer.NEW_LINE_str.

(** ** What the specification asks of a bracket token *)

(** The opening and the closing bracket of a bracket kind. *)
Definition brackets_of (k : option TokenType.t) : option (ascii * ascii) :=
  match k with
  | Some TokenType.paren_round => Some (Paren.L_ROUND, Paren.R_ROUND)
  | Some TokenType.paren_square => Some (Paren.L_SQUARE, Paren.R_SQUARE)
  | Some TokenType.paren_curly => Some (Paren.L_CURLY, Paren.R_CURLY)
  | _ => None
  end.

(** Where a reader stands inside a bracket group opened by [l]: [depth]
    more [l] are open, [quote] is the quote of the string literal being
    read, if any, and [escaped] is set after a backslash in it; or the group
    has just been closed. *)
Inductive group_state : Type :=
| Inside (depth : nat) (quote : option ascii) (escaped : bool)
| Closed.

(** One character of a bracket group.  Brackets inside a string literal do
    not count; a string literal ends at its quote, unless a backslash
    stands before it. *)
Definition group_step (l r : ascii) (depth : nat) (quote : option ascii)
    (escaped : bool) (c : ascii) : group_state :=
  match quote with
  | Some q =>
      if escaped then Inside depth quote false
      else if Ascii.eqb c Re.BACKSLASH then Inside depth quote true
      else if Ascii.eqb c q then Inside depth None false
      else Inside depth quote false
  | None =>
      if Ascii.eqb c r then
        match depth with
        | O => Closed
        | S d => Inside d None false
        end
      else if Ascii.eqb c l then Inside (S depth) None false
      else if Py.mem c [Quote.SINGLE; Quote.DOUBLE] then
        Inside depth (Some c) false
      else Inside depth None false
  end.

(** [closes_at_end l r depth quote escaped s]: reading [s] after an opening
    [l], the closing [r] that matches it is the last character of [s]. *)
Fixpoint closes_at_end (l r : ascii) (depth : nat) (quote : option ascii)
    (escaped : bool) (s : string) : bool :=
  match s with
  | EmptyString => false
  | String c s' =>
      match group_step l r depth quote escaped c with
      | Closed => match s' with EmptyString => true | _ => false end
      | Inside d q e => closes_at_end l r d q e s'
      end
  end.

(** Reading [s] inside a group that it does not close. *)
Fixpoint group_run (l r : ascii) (depth : nat) (quote : option ascii)
    (escaped : bool) (s : string) : option (nat * option ascii * bool) :=
  match s with
  | EmptyString => Some (depth, quote, escaped)
  | String c s' =>
      match group_step l r depth quote escaped c with
      | Closed => None
      | Inside d q e => group_run l r d q e s'
      end
  end.

(** The text starts with [l], ends with the [r] that closes it, and is
    balanced in between. *)
Definition balanced_group (l r : ascii) (text : string) : bool :=
  match text with
  | EmptyString => false
  | String c s => Ascii.eqb c l && closes_at_end l r 0 None false s
  end.

(** A token that is not a bracket token, or whose text is a balanced group
    of its own kind of bracket. *)
Definition well_bracketed (tok : Token.t) : bool :=
  match brackets_of (Token.token_type tok) with
  | Some (l, r) => balanced_group l r (Token.string tok)
  | None => true
  end.

(** The [length] that [Token.__post_init__] computes. *)
Definition length_ok (tok : Token.t) : Prop :=
  Token.length tok =
    if bool_decide (Token.token_type tok = Some TokenType.string)
    then Py.len (Token.string tok) + 2
    else Py.len (Token.string tok).

(** ** Worked inputs *)

(** [Tokenizer(raw_string, "main.jmc")] *)
Definition tokenizer (literal_eval : string -> result Py.literal)
    (raw_string : string) : result Tokenizer.t :=
  Tokenizer.init literal_eval raw_string "main.jmc" 1 1 None.

(** [Tokenizer(raw_string, "main.jmc")], then [parse_func_args] on the
    second token of its only statement. *)
Definition call_args (literal_eval : string -> result Py.literal)
    (raw_string : string)
    : result (list Token.t * gmap string Token.t) :=
  self ← tokenizer literal_eval raw_string;
  match Tokenizer.programs self with
  | [[_; token]] => value (Tokenizer.parse_func_args literal_eval self token)
  | _ => Raise ValueError
  end.

(** The tokens of a value of [parse]. *)
Definition parsed_tokens (p : Tokenizer.parsed) : list Token.t :=
  match p with
  | Tokenizer.Program statements => concat statements
  | Tokenizer.Statement tokens => tokens
  end.

(** The tokens that a call of [parse] emits: none when it raises. *)
Definition emitted (r : result (Tokenizer.parsed * Tokenizer.t))
    : list Token.t :=
  match r with
  | Return (p, _) => parsed_tokens p
  | Raise _ => []
  end.

(** The tokens that a call of [parse_func_args] returns. *)
Definition emitted_args
    (r : result ((list Token.t * gmap string Token.t) * Tokenizer.t))
    : list Token.t :=
  match r with
  | Return ((args, kwargs), _) => args ++ (map_to_list kwargs).*2
  | Raise _ => []
  end.

(** ** Invariants of the two loops *)

Definition tokens_ok (self : Tokenizer.t) : Prop :=
  Forall length_ok (Tokenizer.keywords self)
  /\ Forall (Forall length_ok) (Tokenizer.list_of_tokens self).

Definition flow_self (f : Tokenizer.flow) : Tokenizer.t :=
  match f with
  | Tokenizer.Continue self => self
  | Tokenizer.Next self => self
  end.

Definition locals_ok (l : Tokenizer.locals) : Prop :=
  Forall length_ok (Tokenizer.args l)
  /\ map_Forall (fun _ tok => length_ok tok) (Tokenizer.kwargs l).

Definition round_locals (r : Tokenizer.round) : Tokenizer.locals :=
  match r with
  | Tokenizer.Skip l => l
  | Tokenizer.Fall l => l
  end.

(** The object without the two attributes that [parse] neither reads nor
    assigns. *)
Definition forget (self : Tokenizer.t) : Tokenizer.t :=
  Tokenizer.set_programs [] (Tokenizer.set_file_string EmptyString self).

Definition forget_flow (f : Tokenizer.flow) : Tokenizer.flow :=
  match f with
  | Tokenizer.Continue self => Tokenizer.Continue (forget self)
  | Tokenizer.Next self => Tokenizer.Next (forget self)
  end.

(** Two tokenizer objects on the same source and file path: one as
    [__init__] leaves it before its call of [parse], one in the middle of a
    bracket group, as an interrupted call leaves it. *)
Definition fresh_object (raw_string file_path : string) : Tokenizer.t :=
  Tokenizer.Build raw_string raw_string file_path
    [] 0 0 None EmptyString None [] [] None false None None None false false.

Definition used_object (raw_string file_path : string) : Tokenizer.t :=
  Tokenizer.Build raw_string "other" file_path
    [[Token.new (Some TokenType.keyword) 1 1 "old"]] 7 3
    (Some TokenType.paren) "(x" (Some (Pos.Build 7 1))
    [Token.new (Some TokenType.comma) 7 1 ","] [] (Some Quote.SINGLE) true
    (Some Paren.L_ROUND) (Some Paren.R_ROUND) (Some 2) true true.

(** ** Inputs without a token *)

(** Where a reader of white space and comments stands: between tokens,
    after the first slash of [//], or inside a comment. *)
Inductive blank_state : Type :=
| Idle
| AfterSlash
| InComment.

(** One character of an input without a token and without a semicolon:
    white space, a comment from [//] to the end of the line, or a comment
    from a [#] in column 1 to the end of the line.  [col] is the column of
    the character before. *)
Definition blank_step (q : blank_state) (col : Z) (c : ascii)
    : option (blank_state * Z) :=
  let col := col + 1 in
  if Ascii.eqb c Re.SEMICOLON then None
  else if Ascii.eqb c Re.NEW_LINE then
    match q with
    | AfterSlash => None
    | _ => Some (Idle, 0)
    end
  else
    match q with
    | AfterSlash => if Ascii.eqb c Re.SLASH then Some (InComment, col) else None
    | InComment => Some (InComment, col)
    | Idle =>
        if Py.isspace c then Some (Idle, col)
        else if Ascii.eqb c Re.HASH && (col =? 1) then Some (InComment, col)
        else if Ascii.eqb c Re.SLASH then Some (AfterSlash, col)
        else None
    end.

Fixpoint no_token_from (q : blank_state) (col : Z) (s : string) : bool :=
  match s with
  | EmptyString => match q with AfterSlash => false | _ => true end
  | String c s' =>
      match blank_step q col c with
      | Some (q', col') => no_token_from q' col' s'
      | None => false
      end
  end.

(** The input, read from column [col], is empty or made of white space and
    comments only, and has no semicolon. *)
Definition no_token (col : Z) (s : string) : bool :=
  no_token_from Idle (col - 1) s.

(** What the scanner holds at each of these places. *)
Definition blank_inv (q : blank_state) (self : Tokenizer.t) : Prop :=
  Tokenizer.keywords self = []
  /\ Tokenizer.list_of_tokens self = []
  /\ match q with
     | Idle =>
         Tokenizer.state self = None /\ Tokenizer.token self = EmptyString
     | InComment =>
         Tokenizer.state self = Some TokenType.comment
         /\ Tokenizer.token self = EmptyString
     | AfterSlash =>
         Tokenizer.is_slash self = true
         /\ (Tokenizer.state self = Some TokenType.keyword
                /\ Tokenizer.token self = "/"
             \/ Tokenizer.state self = Some TokenType.comment
                /\ Tokenizer.token self = EmptyString)
     end.

(** What the scanner holds in expression mode: no statement is flushed
    before the end, and an open keyword has text. *)
Definition expr_inv (self : Tokenizer.t) : Prop :=
  Tokenizer.list_of_tokens self = []
  /\ (Tokenizer.state self = Some TokenType.keyword ->
      Tokenizer.token self <> EmptyString).

(** ** Inputs on which bracket tokens are balanced *)

(** An input without a slash, and without a line break right after a
    backslash. *)
Fixpoint plain_from (after_backslash : bool) (s : string) : bool :=
  match s with
  | EmptyString => true
  | String c s' =>
      negb (Ascii.eqb c Re.SLASH)
      && negb (after_backslash && Ascii.eqb c Re.NEW_LINE)
      && plain_from (Ascii.eqb c Re.BACKSLASH) s'
  end.

Definition plain (s : string) : bool := plain_from false s.

Definition bracket_pair (l r : ascii) : Prop :=
  (l = Paren.L_CURLY /\ r = Paren.R_CURLY)
  \/ (l = Paren.L_ROUND /\ r = Paren.R_ROUND)
  \/ (l = Paren.L_SQUARE /\ r = Paren.R_SQUARE).

(** What the scanner holds on such an input; [after_backslash] tells
    whether the last character read was a backslash. *)
Definition group_inv (after_backslash : bool) (self : Tokenizer.t) : Prop :=
  Forall (fun tok => well_bracketed tok = true) (Tokenizer.keywords self)
  /\ Forall (Forall (fun tok => well_bracketed tok = true))
       (Tokenizer.list_of_tokens self)
  /\ Tokenizer.is_slash self = false
  /\ (Tokenizer.is_escaped self = true -> after_backslash = true)
  /\ match Tokenizer.state self with
     | None | Some TokenType.comment =>
         Tokenizer.token self = EmptyString
         /\ Tokenizer.is_string self = false
         /\ Tokenizer.is_escaped self = false
     | Some TokenType.keyword =>
         Tokenizer.is_string self = false
         /\ Tokenizer.is_escaped self = false
     | Some TokenType.string => Tokenizer.is_string self = false
     | Some TokenType.paren =>
         exists l r body depth,
           bracket_pair l r
           /\ Tokenizer.paren self = Some l
           /\ Tokenizer.r_paren self = Some r
           /\ Tokenizer.token self = String l body
           /\ Tokenizer.paren_count self = Some (Z.of_nat depth)
           /\ group_run l r 0 None false body
              = Some (depth,
                      if Tokenizer.is_string self then Tokenizer.quote self
                      else None,
                      Tokenizer.is_escaped self)
           /\ (Tokenizer.is_string self = true ->
               Tokenizer.quote self = Some Quote.SINGLE
               \/ Tokenizer.quote self = Some Quote.DOUBLE)
           /\ (Tokenizer.is_string self = false ->
               Tokenizer.is_escaped self = false)
     | Some _ => False
     end.

(** ** What [parse] hands out *)

(** The kinds a token leaves the scanner with: [TokenType.paren] and
    [TokenType.comment] are states of the scanner only, and
    [TokenType.func] is made by [parse_func_args]. *)
Definition emitted_kind (k : option TokenType.t) : bool :=
  match k with
  | Some TokenType.keyword | Some TokenType.comma | Some TokenType.string
  | Some TokenType.paren_round | Some TokenType.paren_square
  | Some TokenType.paren_curly => true
  | _ => false
  end.

(** The statements a call of [parse] returns: the program in statement
    mode, the one statement in expression mode, none when it raises. *)
Definition returned_statements (r : result (Tokenizer.parsed * Tokenizer.t))
    : list (list Token.t) :=
  match r with
  | Return (Tokenizer.Program statements, _) => statements
  | Return (Tokenizer.Statement tokens, _) => [tokens]
  | Raise _ => []
  end.

Definition opening_bracket (c : option ascii) : Prop :=
  c = Some Paren.L_CURLY \/ c = Some Paren.L_ROUND \/ c = Some Paren.L_SQUARE.

(** What the scanner keeps about the tokens and statements it has built. *)
Definition shape_inv (self : Tokenizer.t) : Prop :=
  Forall (fun tok => emitted_kind (Token.token_type tok) = true)
    (Tokenizer.keywords self)
  /\ Forall (fun st => st <> []
               /\ Forall (fun tok => emitted_kind (Token.token_type tok) = true)
                    st)
       (Tokenizer.list_of_tokens self)
  /\ (Tokenizer.state self = Some TokenType.paren ->
      opening_bracket (Tokenizer.paren self)).

(** ** Sources without a token, in statement mode *)

(** One character of a source that holds no token: as [blank_step], and a
    semicolon between tokens or inside a comment. *)
Definition empty_step (q : blank_state) (col : Z) (c : ascii)
    : option (blank_state * Z) :=
  if Ascii.eqb c Re.SEMICOLON then
    match q with
    | AfterSlash => None
    | _ => Some (q, col + 1)
    end
  else blank_step q col c.

Fixpoint empty_from (q : blank_state) (col : Z) (s : string) : bool :=
  match s with
  | EmptyString => match q with AfterSlash => false | _ => true end
  | String c s' =>
      match empty_step q col c with
      | Some (q', col') => empty_from q' col' s'
      | None => false
      end
  end.

(** The source, read from column [col], is made of white space, comments
    and semicolons outside a token. *)
Definition empty_source (col : Z) (s : string) : bool :=
  empty_from Idle (col - 1) s.

(** ** What [parse_func_args] hands out *)

(** The positional arguments a call of [parse_func_args] returns. *)
Definition positional
    (r : result ((list Token.t * gmap string Token.t) * Tokenizer.t))
    : list Token.t :=
  match r with
  | Return ((args, _), _) => args
  | Raise _ => []
  end.


(** A key that [add_key] lets through: it has a first character, and that
    character is no opening bracket. *)
Definition key_ok (k : string) : Prop :=
  match k with
  | EmptyString => False
  | String c _ =>
      Py.mem c [Paren.L_CURLY; Paren.L_ROUND; Paren.L_SQUARE] = false
  end.

Definition args_inv (l : Tokenizer.locals) : Prop :=
  Forall (fun tok => Token.string tok <> EmptyString) (Tokenizer.args l)
  /\ map_Forall (fun k _ => key_ok k) (Tokenizer.kwargs l).

(** ** Keywords *)

(** A character that goes on an open keyword: no white space (a line break
    is white space), quote, opening bracket, semicolon or comma. *)
Definition keyword_char (c : ascii) : bool :=
  negb (Py.mem c [Quote.SINGLE; Quote.DOUBLE; Paren.L_CURLY; Paren.L_ROUND;
                  Paren.L_SQUARE; Re.SEMICOLON; Re.COMMA])
  && negb (Py.isspace c).

(** A character that opens a keyword wherever it stands: a keyword
    character that is no closing bracket, hash or slash. *)
Definition keyword_start (c : ascii) : bool :=
  keyword_char c
  && negb (Py.mem c [Paren.R_CURLY; Paren.R_ROUND; Paren.R_SQUARE;
                     Re.HASH; Re.SLASH]).

(** ** Positions *)

(** Source order on positions: an earlier line, or the same line and an
    earlier column. *)
Definition pos_lt (p q : Pos.t) : Prop :=
  Pos.line p < Pos.line q
  \/ (Pos.line p = Pos.line q /\ Pos.col p < Pos.col q).

Definition pos_le (p q : Pos.t) : Prop :=
  Pos.line p < Pos.line q
  \/ (Pos.line p = Pos.line q /\ Pos.col p <= Pos.col q).

(** [strict] says whether the bound itself is excluded. *)
Definition pos_rel (strict : bool) (p q : Pos.t) : Prop :=
  if strict then pos_lt p q else pos_le p q.

(** The position a token carries. *)
Definition position (tok : Token.t) : Pos.t :=
  Pos.Build (Token.line tok) (Token.col tok).

Definition token_before (t1 t2 : Token.t) : Prop :=
  pos_lt (position t1) (position t2).

(** The start of the token being read, when the scanner is inside one. *)
Definition open_pos (self : Tokenizer.t) : option Pos.t :=
  match Tokenizer.state self with
  | None | Some TokenType.comment => None
  | Some _ => Tokenizer.token_pos self
  end.

(** The tokens built so far are in source order, all of them before the
    token being read, which starts at or before the character at [cur];
    when no token is being read, all of them are at or before [cur]. *)
Definition ordered (strict : bool) (statements : list (list Token.t))
    (keywords : list Token.t) (reading : option Pos.t) (cur : Pos.t) : Prop :=
  StronglySorted token_before (concat statements ++ keywords)
  /\ match reading with
     | Some p =>
         Forall (fun tok => pos_lt (position tok) p)
           (concat statements ++ keywords)
         /\ pos_rel strict p cur
     | None =>
         Forall (fun tok => pos_rel strict (position tok) cur)
           (concat statements ++ keywords)
     end.

(** [strict] holds inside a round of the loop, after [self.col += 1]. *)
Definition order_inv (strict : bool) (self : Tokenizer.t) : Prop :=
  ordered strict (Tokenizer.list_of_tokens self) (Tokenizer.keywords self)
    (open_pos self) (Pos.Build (Tokenizer.line self) (Tokenizer.col self)).

(** A decoder for the worked inputs that gives [value] on the text
    [special] and only removes the quotes elsewhere. *)
Definition unquote_but (special : string) (value : Py.literal) (s : string)
    : result Py.literal :=
  if String.eqb s special then Return value else unquote s.

(** ** The exceptions of [parse] *)






(** * Properties *)

Section Scenarios.

Variable literal_eval : string -> result Py.literal.

(** The scenario table of the specification, statement mode. *)
Example tokenize_call :
  Tokenizer.programs <$> tokenizer literal_eval "foo(1, 2);"
  = Return [[Token.new (Some TokenType.keyword) 1 1 "foo";
             Token.new (Some TokenType.paren_round) 1 4 "(1, 2)"]].
Proof. reflexivity. Qed.

Example tokenize_comment :
  Tokenizer.programs <$> tokenizer literal_eval ("// a comment" +:+ NL +:+ "foo;")
  = Return [[Token.new (Some TokenType.keyword) 2 1 "foo"]].
Proof. reflexivity. Qed.

Example tokenize_class :
  Tokenizer.programs <$>
    tokenizer literal_eval "class A { function f() { say hi; } }"
  = Return [[Token.new (Some TokenType.keyword) 1 1 "class";
             Token.new (Some TokenType.keyword) 1 7 "A";
             Token.new (Some TokenType.paren_curly) 1 9
               "{ function f() { say hi; } }"]].
Proof. reflexivity. Qed.

Example args_keywords :
  call_args literal_eval "foo(x=1, y=2);"
  = Return ([], {[ "x" := Token.new (Some TokenType.keyword) 1 4 "1";
                   "y" := Token.new (Some TokenType.keyword) 1 9 "2" ]}).
Proof. vm_compute. reflexivity. Qed.

Example args_positional_after_keyword :
  call_args literal_eval "foo(1, x=2, 3);"
  = Raise (JMCSyntaxException
      ("In main.jmc" +:+ NL +:+
       "Positional argument follows keyword argument at line 1 col 13."
       +:+ NL +:+ "foo(1, x=2, 3 <-")).
Proof. reflexivity. Qed.

Example args_duplicated_key :
  call_args literal_eval "foo(x=1, x=2);"
  = Raise (JMCSyntaxException
      ("In main.jmc" +:+ NL +:+ "Duplicated key(x) at line 1 col 9."
       +:+ NL +:+ "foo(x=1,  <-")).
Proof. reflexivity. Qed.

(** C1, at the input on which the code breaks it.  A comment that starts
    inside a bracket group leaves the text read so far in the buffer; the
    next bracket group is emitted with that text in front.  The input
    [{ // c], new line, [(b);] is accepted, and its only token is a
    [paren_round] token with text [{ (b)], which neither starts with the
    round opening bracket nor is balanced. *)
Theorem bracket_token_after_comment (self : Tokenizer.t) :
  let tok := Token.new (Some TokenType.paren_round) 2 1 "{ (b)" in
  value (Tokenizer.parse literal_eval true self
           ("{ // c" +:+ NL +:+ "(b);") 1 1)
  = Return (Tokenizer.Program [[tok]])
  /\ Py.first_char (Token.string tok) = Return Paren.L_CURLY
  /\ well_bracketed tok = false.
Proof. repeat split. Qed.

(** C2, at the input on which the code breaks it.  In expression mode the
    statement is flushed at the end of input only when a keyword is still
    open.  The interior of [foo(1, [2]);] has no semicolon and ends in a
    bracket group: [parse] raises the error of a missing semicolon. *)
Theorem expression_ending_in_bracket_rejected :
  (self ← tokenizer literal_eval "foo(1, [2]);";
   value (Tokenizer.parse literal_eval false self "1, [2]" 1 4))
  = Raise (JMCSyntaxException
      ("In main.jmc" +:+ NL +:+ "Expected semicolon(;) at line 1 col 10."
       +:+ NL +:+ "foo(1, [2] <-")).
Proof. reflexivity. Qed.

(** C3, at its input.  The statement is tokenized as the specification
    says, but [parse_func_args] on its round bracket token raises: the
    interior is read in expression mode, and the semicolon of the function
    body is refused although it stands inside a curly bracket group. *)
Theorem arrow_function_argument_rejected :
  Tokenizer.programs <$> tokenizer literal_eval "run(() => { say hi; });"
  = Return [[Token.new (Some TokenType.keyword) 1 1 "run";
             Token.new (Some TokenType.paren_round) 1 4
               "(() => { say hi; })"]]
  /\ call_args literal_eval "run(() => { say hi; });"
     = Raise (JMCSyntaxException
         ("In main.jmc" +:+ NL +:+ "Unexpected semicolon(;) at line 1 col 18."
          +:+ NL +:+ "run(() => { say hi <-")).
Proof. split; reflexivity. Qed.

(** The arrow function without the semicolon is refused as well, by the
    defect of C2: the interior ends in a bracket group. *)
Example arrow_function_without_semicolon :
  call_args literal_eval "run(() => { say hi });"
  = Raise (JMCSyntaxException
      ("In main.jmc" +:+ NL +:+ "Expected semicolon(;) at line 1 col 20."
       +:+ NL +:+ "run(() => { say hi } <-")).
Proof. reflexivity. Qed.

(** C7, at the input on which the code breaks it.  [add_key] reads
    [key[0]] before it tests for the empty key, so the argument list
    [(=bar)] ends in [IndexError], not in the syntax error. *)
Theorem empty_key_index_error :
  call_args literal_eval "foo(=bar);" = Raise IndexError.
Proof. reflexivity. Qed.

(** Every commit of a keyword value under the empty key ends that way:
    the test for the empty key is never reached. *)
Lemma add_key_empty_key self l token :
  Tokenizer.key l = EmptyString ->
  Tokenizer.add_key self l token = Raise IndexError.
Proof. intros E. unfold Tokenizer.add_key. rewrite E. reflexivity. Qed.

(** C8, at the input on which the code breaks it.  After a staged
    positional value the keyword [=b=c] is committed as the value [b=c]
    of the key [a]; no error is raised. *)
Theorem second_equal_sign_accepted :
  call_args literal_eval "foo(a =b=c);"
  = Return ([], {[ "a" := Token.new (Some TokenType.keyword) 1 6 "b=c" ]}).
Proof. vm_compute. reflexivity. Qed.

(** The two sibling paths do raise. *)
Example second_equal_sign_fresh :
  call_args literal_eval "foo(a=b=c);"
  = Raise (JMCSyntaxException
      ("In main.jmc" +:+ NL +:+ "Duplicated equal sign(=) at line 1 col 8."
       +:+ NL +:+ "foo(a=b= <-")).
Proof. reflexivity. Qed.

Example second_equal_sign_after_key :
  call_args literal_eval "foo(a= b=c);"
  = Raise (JMCSyntaxException
      ("In main.jmc" +:+ NL +:+ "Duplicated equal sign(=) at line 1 col 9."
       +:+ NL +:+ "foo(a= b= <-")).
Proof. reflexivity. Qed.

End Scenarios.

(** Reading the attributes of an object that is written out. *)
Ltac setters :=
  cbv beta iota delta
    [ Tokenizer.set_raw_string Tokenizer.set_file_string
      Tokenizer.set_file_path Tokenizer.set_programs Tokenizer.set_line
      Tokenizer.set_col Tokenizer.set_state Tokenizer.set_token
      Tokenizer.set_token_pos Tokenizer.set_keywords
      Tokenizer.set_list_of_tokens Tokenizer.set_quote
      Tokenizer.set_is_escaped Tokenizer.set_paren Tokenizer.set_r_paren
      Tokenizer.set_paren_count Tokenizer.set_is_string
      Tokenizer.set_is_slash Tokenizer.raw_string Tokenizer.file_string
      Tokenizer.file_path Tokenizer.programs Tokenizer.line Tokenizer.col
      Tokenizer.state Tokenizer.token Tokenizer.token_pos
      Tokenizer.keywords Tokenizer.list_of_tokens Tokenizer.quote
      Tokenizer.is_escaped Tokenizer.paren Tokenizer.r_paren
      Tokenizer.paren_count Tokenizer.is_string Tokenizer.is_slash ].

Ltac fields :=
  cbn [ forget forget_flow fmap result_fmap mbind result_bind mret result_ret
      Tokenizer.state_is
      Tokenizer.raw_string Tokenizer.file_string Tokenizer.file_path
      Tokenizer.programs Tokenizer.line Tokenizer.col Tokenizer.state
      Tokenizer.token Tokenizer.token_pos Tokenizer.keywords
      Tokenizer.list_of_tokens Tokenizer.quote Tokenizer.is_escaped
      Tokenizer.paren Tokenizer.r_paren Tokenizer.paren_count
      Tokenizer.is_string Tokenizer.is_slash Tokenizer.set_raw_string
      Tokenizer.set_file_string Tokenizer.set_file_path
      Tokenizer.set_programs Tokenizer.set_line Tokenizer.set_col
      Tokenizer.set_state Tokenizer.set_token Tokenizer.set_token_pos
      Tokenizer.set_keywords Tokenizer.set_list_of_tokens
      Tokenizer.set_quote Tokenizer.set_is_escaped Tokenizer.set_paren
      Tokenizer.set_r_paren Tokenizer.set_paren_count
      Tokenizer.set_is_string Tokenizer.set_is_slash ].

(** ** Raising never returns *)

Lemma bind_Return_inv {A B : Type} (r : result A) (k : A -> result B) b :
  r ≫= k = Return b -> exists a, r = Return a /\ k a = Return b.
Proof. destruct r as [a|]; [|discriminate]. intros E. exists a. auto. Qed.

Lemma syntax_error_raises {A : Type} self message excerpt (a : A) :
  Tokenizer.syntax_error self message excerpt <> Return a.
Proof.
  unfold Tokenizer.syntax_error. destruct excerpt; discriminate.
Qed.

Lemma unescaped_line_break_raises {A : Type} self (a : A) :
  Tokenizer.unescaped_line_break self <> Return a.
Proof. apply syntax_error_raises. Qed.

Lemma token_of_scalar_raises {A : Type} self (a : A) :
  Tokenizer.token_of_scalar self <> Return a.
Proof.
  unfold Tokenizer.token_of_scalar.
  destruct (Tokenizer.token_pos self); discriminate.
Qed.

Lemma token_of_container_raises {A : Type} self (a : A) :
  Tokenizer.token_of_container self <> Return a.
Proof.
  unfold Tokenizer.token_of_container.
  destruct (Tokenizer.token_pos self); discriminate.
Qed.

Ltac raises :=
  match goal with
  | H : Tokenizer.syntax_error _ _ _ = Return _ |- _ =>
      destruct (syntax_error_raises _ _ _ _ H)
  | H : Tokenizer.unescaped_line_break _ = Return _ |- _ =>
      destruct (unescaped_line_break_raises _ _ H)
  | H : Tokenizer.token_of_scalar _ = Return _ |- _ =>
      destruct (token_of_scalar_raises _ _ H)
  | H : Tokenizer.token_of_container _ = Return _ |- _ =>
      destruct (token_of_container_raises _ _ H)
  end.

(** ** The [length] field (C4) *)

Section Length.

Variable literal_eval : string -> result Py.literal.
Variable expect_semicolon : bool.

Lemma new_length_ok k line col s : length_ok (Token.new k line col s).
Proof. reflexivity. Qed.

Lemma append_token_ok self self' :
  tokens_ok self -> Tokenizer.append_token self = Return self' ->
  tokens_ok self'.
Proof.
  intros [Hk Hl]. unfold Tokenizer.append_token.
  destruct (Tokenizer.token_pos self); [|discriminate].
  intros [= <-]. split; simpl; [|exact Hl].
  apply Forall_app. split; [exact Hk|].
  constructor; [apply new_length_ok|constructor].
Qed.

Lemma append_keywords_ok self :
  tokens_ok self -> tokens_ok (Tokenizer.append_keywords self).
Proof.
  intros [Hk Hl]. unfold Tokenizer.append_keywords.
  destruct (negb _); [|split; assumption].
  split; simpl; [constructor|].
  apply Forall_app. split; [exact Hl|]. constructor; [exact Hk|constructor].
Qed.

Ltac ok_conv :=
  match goal with
  | H : tokens_ok _ |- tokens_ok _ => exact H
  | H : tokens_ok _ |- tokens_ok _ => apply append_keywords_ok; exact H
  | H : tokens_ok _ |- tokens_ok _ =>
      simpl;
      match goal with
      | |- context [if ?b then _ else _] => destruct b
      end; [apply append_keywords_ok|]; exact H
  end.

Ltac ok_step :=
  repeat first
    [ progress simplify_eq
    | raises
    | match goal with
      | E : Tokenizer.append_token _ = Return _ |- _ =>
          apply append_token_ok in E; [|solve [ok_conv]]
      | H : mbind _ ?r = Return _ |- _ => destruct r eqn:?; simpl in H
      | H : (if ?b then _ else _) = _ |- _ => destruct b eqn:?
      | H : match ?x with _ => _ end = Return _ |- _ => destruct x eqn:?
      end ];
  try solve [ok_conv].

Lemma on_new_line_ok self char self' :
  tokens_ok self -> Tokenizer.on_new_line self char = Return self' ->
  tokens_ok self'.
Proof. intros H E. unfold Tokenizer.on_new_line in E. ok_step. Qed.

Lemma in_keyword_ok self char f :
  tokens_ok self -> Tokenizer.in_keyword self char = Return f ->
  tokens_ok (flow_self f).
Proof. intros H E. unfold Tokenizer.in_keyword in E. ok_step. Qed.

Lemma in_none_ok self char f :
  tokens_ok self -> Tokenizer.in_none self char = Return f ->
  tokens_ok (flow_self f).
Proof. intros H E. unfold Tokenizer.in_none in E. ok_step. Qed.

Lemma in_string_ok self char f :
  tokens_ok self -> Tokenizer.in_string literal_eval self char = Return f ->
  tokens_ok (flow_self f).
Proof. intros H E. unfold Tokenizer.in_string in E. ok_step. Qed.

Lemma in_paren_ok self char f :
  tokens_ok self ->
  Tokenizer.in_paren expect_semicolon self char = Return f ->
  tokens_ok (flow_self f).
Proof. intros H E. unfold Tokenizer.in_paren in E. ok_step. Qed.

Lemma dispatch_ok self char f :
  tokens_ok self ->
  Tokenizer.dispatch literal_eval expect_semicolon self char = Return f ->
  tokens_ok (flow_self f).
Proof.
  intros H E. unfold Tokenizer.dispatch in E.
  repeat case_match; simplify_eq;
    eauto using in_none_ok, in_string_ok, in_paren_ok.
Qed.

Lemma step_ok self char self' :
  tokens_ok self ->
  Tokenizer.step literal_eval expect_semicolon self char = Return self' ->
  tokens_ok self'.
Proof.
  intros H E. unfold Tokenizer.step in E.
  destruct (negb expect_semicolon && _); [raises|].
  destruct (_ =? Re.NEW_LINE)%char; [eapply on_new_line_ok, E; exact H|].
  destruct (_ && _ && _); [simplify_eq; exact H|].
  destruct (Tokenizer.in_keyword _ _) as [f|] eqn:Ek; [|discriminate].
  apply in_keyword_ok in Ek; [|exact H]. simpl in E.
  destruct f as [s|s]; [simplify_eq; exact Ek|].
  destruct (Tokenizer.dispatch _ _ _ _) as [f|] eqn:Ed; [|discriminate].
  apply dispatch_ok in Ed; [|exact Ek]. simpl in E.
  destruct f; simplify_eq; exact Ed.
Qed.

Lemma scan_ok string : forall self self',
  tokens_ok self ->
  Tokenizer.scan literal_eval expect_semicolon self string = Return self' ->
  tokens_ok self'.
Proof.
  induction string as [|char rest IH]; intros self self' H E; simpl in E.
  - simplify_eq. exact H.
  - destruct (Tokenizer.step _ _ _ _) as [s|] eqn:Es; [|discriminate].
    eapply IH, E. eapply step_ok, Es. exact H.
Qed.

Lemma index_In {A : Type} (l : list A) i a : Py.index l i = Return a -> In a l.
Proof.
  unfold Py.index. destruct (_ || _); [discriminate|].
  destruct (nth_error _ _) eqn:E; [|discriminate].
  intros [= <-]. eapply nth_error_In, E.
Qed.

Lemma flush_ok self self' :
  tokens_ok self -> Tokenizer.flush expect_semicolon self = Return self' ->
  tokens_ok self'.
Proof. intros H E. unfold Tokenizer.flush in E. ok_step. Qed.

Lemma returned_ok self p :
  tokens_ok self -> Tokenizer.returned expect_semicolon self = Return p ->
  match p with
  | Tokenizer.Program statements => Forall (Forall length_ok) statements
  | Tokenizer.Statement tokens => Forall length_ok tokens
  end.
Proof.
  intros [Hk Hl] E. unfold Tokenizer.returned in E.
  destruct expect_semicolon; [simplify_eq; exact Hl|].
  destruct (Py.index _ _) as [first|] eqn:Ei; [|discriminate].
  simpl in E. simplify_eq. apply index_In in Ei.
  rewrite Forall_forall in Hl. apply Hl. apply list_elem_of_In, Ei.
Qed.

Lemma finish_ok self p self' :
  tokens_ok self ->
  Tokenizer.finish expect_semicolon self = Return (p, self') ->
  tokens_ok self'
  /\ match p with
     | Tokenizer.Program statements => Forall (Forall length_ok) statements
     | Tokenizer.Statement tokens => Forall length_ok tokens
     end.
Proof.
  intros H E. unfold Tokenizer.finish in E.
  destruct (Tokenizer.flush _ _) as [s|] eqn:Ef; [|discriminate].
  apply flush_ok in Ef; [|exact H]. simpl in E.
  destruct (Tokenizer.check_closed _) as [[]|]; [|discriminate]. simpl in E.
  destruct (Tokenizer.returned _ _) as [q|] eqn:Er; [|discriminate].
  simpl in E. simplify_eq. split; [exact Ef|]. eapply returned_ok, Er. exact Ef.
Qed.

Lemma parse_ok self string line col p self' :
  Tokenizer.parse literal_eval expect_semicolon self string line col
  = Return (p, self') ->
  tokens_ok self'
  /\ match p with
     | Tokenizer.Program statements => Forall (Forall length_ok) statements
     | Tokenizer.Statement tokens => Forall length_ok tokens
     end.
Proof.
  unfold Tokenizer.parse. intros E.
  destruct (Tokenizer.scan _ _ _ _) as [s|] eqn:Es; [|discriminate].
  simpl in E. eapply finish_ok, E. eapply scan_ok, Es.
  split; constructor.
Qed.

Lemma add_arg_ok self l token l' :
  locals_ok l -> Tokenizer.add_arg self l token = Return l' -> locals_ok l'.
Proof.
  intros [Ha Hk] E. unfold Tokenizer.add_arg in E.
  destruct (negb _); [raises|]. simplify_eq. split; simpl; [|exact Hk].
  apply Forall_app. split; [exact Ha|].
  constructor; [apply new_length_ok|constructor].
Qed.

Lemma add_key_ok self l token l' :
  locals_ok l -> Tokenizer.add_key self l token = Return l' -> locals_ok l'.
Proof.
  intros [Ha Hk] E. unfold Tokenizer.add_key in E.
  apply bind_Return_inv in E as (k0 & _ & E).
  destruct (Py.mem _ _); [destruct (Tokenizer.last_token l); [raises|discriminate]|].
  destruct (_ =? _)%string; [raises|].
  destruct (bool_decide _); [raises|].
  simplify_eq. split; simpl; [exact Ha|].
  apply map_Forall_insert_2; [apply new_length_ok|exact Hk].
Qed.

Ltac args_conv :=
  match goal with
  | H : locals_ok _ |- locals_ok _ => exact H
  end.

Ltac args_step :=
  repeat first
    [ progress simplify_eq
    | raises
    | match goal with
      | E : Tokenizer.add_key _ _ _ = Return _ |- _ =>
          apply add_key_ok in E; [|solve [args_conv]]
      | E : Tokenizer.add_arg _ _ _ = Return _ |- _ =>
          apply add_arg_ok in E; [|solve [args_conv]]
      | H : mbind _ ?r = Return _ |- _ => destruct r eqn:?; simpl in H
      | H : (if ?b then _ else _) = _ |- _ => destruct b eqn:?
      | H : match ?x with _ => _ end = Return _ |- _ => destruct x eqn:?
      end ];
  try solve [args_conv].

Lemma in_arrow_ok self l token r :
  locals_ok l -> Tokenizer.in_arrow self l token = Return r ->
  locals_ok (round_locals r).
Proof. intros H E. unfold Tokenizer.in_arrow in E. args_step. Qed.

Lemma on_keyword_ok self l token l' :
  locals_ok l -> Tokenizer.on_keyword self l token = Return l' ->
  locals_ok l'.
Proof. intros H E. unfold Tokenizer.on_keyword in E. args_step. Qed.

Lemma arg_step_ok self l token l' :
  locals_ok l -> Tokenizer.arg_step self l token = Return l' -> locals_ok l'.
Proof.
  intros H E. unfold Tokenizer.arg_step in E.
  destruct (Tokenizer.in_arrow _ _ _) as [r|] eqn:Ea; [|discriminate].
  apply in_arrow_ok in Ea; [|exact H]. simpl in E.
  destruct r as [l0|l0]; [simplify_eq; exact Ea|]. simpl in Ea.
  apply bind_Return_inv in E as (l1 & E1 & E). simplify_eq.
  enough (locals_ok l1) by assumption.
  destruct (Tokenizer.is_type token TokenType.keyword);
    [eapply on_keyword_ok, E1; exact Ea|].
  args_step.
Qed.

Lemma arg_loop_ok self keywords : forall l token l' token',
  locals_ok l ->
  Tokenizer.arg_loop self l token keywords = Return (l', token') ->
  locals_ok l'.
Proof.
  induction keywords as [|tok rest IH]; intros l token l' token' H E;
    simpl in E.
  - simplify_eq. exact H.
  - apply bind_Return_inv in E as (l1 & E1 & E).
    eapply IH, E. eapply arg_step_ok, E1. exact H.
Qed.

Lemma parse_func_args_ok self token args kwargs self' :
  Tokenizer.parse_func_args literal_eval self token
  = Return ((args, kwargs), self') ->
  Forall length_ok args /\ map_Forall (fun _ tok => length_ok tok) kwargs.
Proof.
  unfold Tokenizer.parse_func_args. intros E.
  destruct (negb _); [raises|].
  apply bind_Return_inv in E as ([p s] & _ & E).
  destruct p as [|keywords]; [discriminate|].
  apply bind_Return_inv in E as ([l tok] & El & E).
  apply bind_Return_inv in E as (l1 & E1 & E). simplify_eq.
  apply arg_loop_ok in El; [|split; [constructor|apply map_Forall_empty]].
  enough (locals_ok l1) as [? ?] by (split; assumption).
  destruct (Py.truthy _); [eapply add_arg_ok, E1; exact El|].
  simplify_eq. exact El.
Qed.

(** C4.  Every token that [parse] emits, in either mode, and every token
    that [parse_func_args] returns as a positional or as a keyword
    argument, has [length = len(string) + 2] when its kind is [string] and
    [length = len(string)] otherwise. *)
Theorem token_length self string line col token :
  Forall length_ok
    (emitted (Tokenizer.parse literal_eval expect_semicolon self string line col))
  /\ Forall length_ok
       (emitted_args (Tokenizer.parse_func_args literal_eval self token)).
Proof.
  split.
  - destruct (Tokenizer.parse _ _ _ _ _ _) as [[p s]|] eqn:E; [|constructor].
    apply parse_ok in E as [_ E]. destruct p; simpl; [|exact E].
    apply Forall_concat, E.
  - destruct (Tokenizer.parse_func_args _ _ _) as [[[a k] s]|] eqn:E;
      [|constructor].
    apply parse_func_args_ok in E as [Ha Hk]. simpl.
    apply Forall_app. split; [exact Ha|].
    apply Forall_fmap. apply map_Forall_to_list in Hk.
    eapply Forall_impl; [exact Hk|]. intros [k0 tok]. auto.
Qed.

End Length.


(** ** Determinism (C9) *)

Section Determinism.

Variable literal_eval : string -> result Py.literal.
Variable expect_semicolon : bool.

Ltac forget_cases :=
  repeat first
    [ reflexivity
    | match goal with
      | |- context [if ?b then _ else _] => destruct b; fields
      | |- context [match ?x with _ => _ end] => destruct x; fields
      | |- context [Py.index ?l ?i] => destruct (Py.index l i); fields
      | |- context [literal_eval ?s] => destruct (literal_eval s); fields
      end ].

Ltac forget_unfold :=
  unfold Tokenizer.unescaped_line_break;
  unfold Tokenizer.append_token, Tokenizer.append_keywords,
    Tokenizer.syntax_error, Tokenizer.source_line, Tokenizer.state_is;
  fields.

Lemma on_new_line_forget self char :
  Tokenizer.on_new_line (forget self) char
  = forget <$> Tokenizer.on_new_line self char.
Proof.
  destruct self. unfold Tokenizer.on_new_line. forget_unfold. forget_cases.
Qed.

Lemma in_keyword_forget self char :
  Tokenizer.in_keyword (forget self) char
  = forget_flow <$> Tokenizer.in_keyword self char.
Proof.
  destruct self. unfold Tokenizer.in_keyword. forget_unfold. forget_cases.
Qed.

Lemma in_none_forget self char :
  Tokenizer.in_none (forget self) char
  = forget_flow <$> Tokenizer.in_none self char.
Proof.
  destruct self. unfold Tokenizer.in_none. forget_unfold. forget_cases.
Qed.

Lemma in_string_forget self char :
  Tokenizer.in_string literal_eval (forget self) char
  = forget_flow <$> Tokenizer.in_string literal_eval self char.
Proof.
  destruct self. unfold Tokenizer.in_string. forget_unfold. forget_cases.
Qed.

Lemma in_paren_forget self char :
  Tokenizer.in_paren expect_semicolon (forget self) char
  = forget_flow <$> Tokenizer.in_paren expect_semicolon self char.
Proof.
  destruct self. unfold Tokenizer.in_paren. forget_unfold. forget_cases.
Qed.

Lemma dispatch_forget self char :
  Tokenizer.dispatch literal_eval expect_semicolon (forget self) char
  = forget_flow <$> Tokenizer.dispatch literal_eval expect_semicolon self char.
Proof.
  unfold Tokenizer.dispatch.
  rewrite in_none_forget, in_string_forget, in_paren_forget.
  destruct self. unfold Tokenizer.state_is. fields. forget_cases.
Qed.

Lemma step_forget self char :
  Tokenizer.step literal_eval expect_semicolon (forget self) char
  = forget <$> Tokenizer.step literal_eval expect_semicolon self char.
Proof.
  unfold Tokenizer.step.
  replace (Tokenizer.set_col (Tokenizer.col (forget self) + 1) (forget self))
    with (forget (Tokenizer.set_col (Tokenizer.col self + 1) self))
    by (destruct self; reflexivity).
  generalize (Tokenizer.set_col (Tokenizer.col self + 1) self).
  clear self. intros self.
  destruct (negb expect_semicolon && _).
  { destruct self. forget_unfold. forget_cases. }
  destruct (char =? Re.NEW_LINE)%char; [apply on_new_line_forget|].
  replace (Tokenizer.is_slash (forget self)) with (Tokenizer.is_slash self)
    by (destruct self; reflexivity).
  replace (Tokenizer.state_is (forget self) TokenType.string)
    with (Tokenizer.state_is self TokenType.string)
    by (destruct self; reflexivity).
  destruct (_ && _ && _); [destruct self; reflexivity|].
  rewrite in_keyword_forget.
  destruct (Tokenizer.in_keyword self char) as [[s|s]|]; fields;
    try reflexivity.
  rewrite dispatch_forget.
  destruct (Tokenizer.dispatch _ _ s char) as [[s'|s']|]; reflexivity.
Qed.

Lemma scan_forget string : forall self,
  Tokenizer.scan literal_eval expect_semicolon (forget self) string
  = forget <$> Tokenizer.scan literal_eval expect_semicolon self string.
Proof.
  induction string as [|char rest IH]; intros self; simpl; [reflexivity|].
  rewrite step_forget.
  destruct (Tokenizer.step _ _ self char) as [s|]; fields; [apply IH|reflexivity].
Qed.

Lemma flush_forget self :
  Tokenizer.flush expect_semicolon (forget self)
  = forget <$> Tokenizer.flush expect_semicolon self.
Proof.
  destruct self. unfold Tokenizer.flush. forget_unfold. forget_cases.
Qed.

Lemma check_closed_forget self :
  Tokenizer.check_closed (forget self) = Tokenizer.check_closed self.
Proof.
  destruct self. unfold Tokenizer.check_closed. forget_unfold. forget_cases.
Qed.

Lemma returned_forget self :
  Tokenizer.returned expect_semicolon (forget self)
  = Tokenizer.returned expect_semicolon self.
Proof. destruct self. reflexivity. Qed.

Lemma finish_forget self :
  Tokenizer.finish expect_semicolon (forget self)
  = (fun r => (r.1, forget r.2)) <$> Tokenizer.finish expect_semicolon self.
Proof.
  unfold Tokenizer.finish. rewrite flush_forget.
  destruct (Tokenizer.flush _ self) as [s|]; fields; [|reflexivity].
  rewrite check_closed_forget, returned_forget.
  destruct (Tokenizer.check_closed s) as [[]|]; fields; [|reflexivity].
  destruct (Tokenizer.returned _ s); reflexivity.
Qed.

Lemma reset_forget self1 self2 line col :
  Tokenizer.raw_string self1 = Tokenizer.raw_string self2 ->
  Tokenizer.file_path self1 = Tokenizer.file_path self2 ->
  forget (Tokenizer.reset self1 line col)
  = forget (Tokenizer.reset self2 line col).
Proof.
  destruct self1, self2. simpl. intros -> ->. reflexivity.
Qed.

Lemma parse_forget self string :
  value (Tokenizer.scan literal_eval expect_semicolon (forget self) string
         ≫= Tokenizer.finish expect_semicolon)
  = value (Tokenizer.scan literal_eval expect_semicolon self string
           ≫= Tokenizer.finish expect_semicolon).
Proof.
  rewrite scan_forget.
  destruct (Tokenizer.scan _ _ self string) as [s|]; fields; [|reflexivity].
  rewrite finish_forget.
  destruct (Tokenizer.finish _ s) as [[q s']|]; reflexivity.
Qed.

(** C9.  The outcome of [parse], the token stream with the kind, position,
    text and length of every token, or the exception raised, is fixed by
    the source string, the starting line and column, the mode flag, and
    the file path and raw source that the diagnostics quote: whatever an
    earlier call left in the object has no effect on it. *)
Theorem parse_deterministic self1 self2 string line col :
  Tokenizer.raw_string self1 = Tokenizer.raw_string self2 ->
  Tokenizer.file_path self1 = Tokenizer.file_path self2 ->
  value (Tokenizer.parse literal_eval expect_semicolon self1 string line col)
  = value (Tokenizer.parse literal_eval expect_semicolon self2 string line col).
Proof.
  intros Hr Hp. unfold Tokenizer.parse.
  rewrite <- (parse_forget (Tokenizer.reset self1 line col)).
  rewrite <- (parse_forget (Tokenizer.reset self2 line col)).
  rewrite (reset_forget self1 self2 line col Hr Hp). reflexivity.
Qed.

End Determinism.

Lemma parse_deterministic_witness :
  let self1 := fresh_object "foo(1, 2);" "main.jmc" in
  let self2 := used_object "foo(1, 2);" "main.jmc" in
  Tokenizer.raw_string self1 = Tokenizer.raw_string self2
  /\ Tokenizer.file_path self1 = Tokenizer.file_path self2
  /\ value (Tokenizer.parse unquote true self1 "foo(1, 2);" 1 1)
     = value (Tokenizer.parse unquote true self2 "foo(1, 2);" 1 1).
Proof.
  split; [reflexivity|]. split; [reflexivity|].
  apply (parse_deterministic unquote true
           (fresh_object "foo(1, 2);" "main.jmc")
           (used_object "foo(1, 2);" "main.jmc")); reflexivity.
Defined.

(** ** The class expander (C5, C6) *)

Example expand_siblings :
  Class.process_class _ Class.recorder Class.white_space Class.word_character Class.match_bracket 5 []
    "  class A.b { f{ }{}  } class B{x}  rest " "p."
  = Return ("rest", [(" f{ }{}  ", "p.A.b."); ("x", "p.B.")]).
Proof. reflexivity. Qed.

Section ClassExpander.

Variable DataPack : Type.
Variable process_function :
  DataPack -> string -> string -> result (string * DataPack).
Variable space : ascii -> bool.
Variable word : ascii -> bool.
Variable bracket_group : string -> option (string * string).

Lemma process_class_match depth self line prefix name body rest :
  Class.match_class space word bracket_group (Py.strip line) = Some (name, body, rest) ->
  Class.process_class DataPack process_function space word bracket_group (S depth)
    self line prefix
  = '(remaining, self) ← process_function self body (prefix +:+ name +:+ ".");
    Class.process_class DataPack process_function space word bracket_group depth
      self (remaining +:+ rest) prefix.
Proof.
  intros E. simpl. unfold Class.subn_class. rewrite E.
  destruct (process_function _ _ _) as [[r s]|]; reflexivity.
Qed.

(** C6, as the code has it.  When the trimmed input does not start with a
    class, [process_class] returns the trimmed input, without a call of the
    function-level expander; the input itself only when it has no white
    space at either end. *)
Theorem process_class_no_match depth self line prefix :
  Class.match_class space word bracket_group (Py.strip line) = None ->
  Class.process_class DataPack process_function space word bracket_group (S depth)
    self line prefix
  = Return (Py.strip line, self).
Proof. intros E. simpl. unfold Class.subn_class. rewrite E. reflexivity. Qed.

End ClassExpander.

Lemma process_class_no_match_witness :
  Class.match_class Class.white_space Class.word_character Class.match_bracket (Py.strip " function f() {} ") = None
  /\ Class.process_class _ Class.recorder Class.white_space Class.word_character Class.match_bracket 1 []
       " function f() {} " "p."
     = Return (Py.strip " function f() {} ", []).
Proof.
  split; [reflexivity|].
  apply (process_class_no_match _ Class.recorder Class.white_space Class.word_character Class.match_bracket 0 []
           " function f() {} " "p.").
  reflexivity.
Defined.

(** C6, at an input on which it fails: nothing matches in [ x], and the
    value is [x], without the leading space. *)
Lemma process_class_strips_input :
  Class.match_class Class.white_space Class.word_character Class.match_bracket (Py.strip " x") = None
  /\ Class.process_class _ Class.recorder Class.white_space Class.word_character Class.match_bracket 1 [] " x" "p."
     = Return ("x", [])
  /\ "x" <> " x".
Proof. repeat split. discriminate. Qed.

(** *** The pattern of a class, in words *)

Lemma star_longest {A : Type} (p : ascii -> bool) taken :
  forall left (k : string -> string -> option A) r,
  Class.all_chars p taken = true ->
  match left with String c _ => p c = false | EmptyString => True end ->
  k taken left = Some r ->
  Class.star p (taken +:+ left) k = Some r.
Proof.
  induction taken as [|c taken IH]; intros left k r Ht Hl Hk.
  - change (EmptyString +:+ left) with left.
    destruct left as [|d left]; simpl; [exact Hk|]. rewrite Hl. exact Hk.
  - simpl in Ht. apply andb_prop in Ht as [Hc Ht].
    change (String c taken +:+ left) with (String c (taken +:+ left)).
    simpl. rewrite Hc.
    rewrite (IH left (fun t l => k (String c t) l) r Ht Hl Hk). reflexivity.
Qed.

Lemma close_at_balanced body : forall depth rest,
  Class.balanced_from depth body = true ->
  Class.close_at depth (body +:+ String "}" rest) = Some (body, rest).
Proof.
  induction body as [|c body IH]; intros depth rest H; simpl in *.
  - apply Nat.eqb_eq in H. subst depth. reflexivity.
  - destruct (Ascii.eqb c "}") eqn:Ec.
    + apply Ascii.eqb_eq in Ec. subst c. simpl in H.
      destruct depth as [|d]; [discriminate|].
      rewrite (IH _ _ H). reflexivity.
    + destruct (Ascii.eqb c "{") eqn:Eo.
      * rewrite (IH _ _ H). reflexivity.
      * rewrite (IH _ _ H). reflexivity.
Qed.

Section ClassPattern.

Variable space : ascii -> bool.
Variable word : ascii -> bool.

(** No character is in [\s] and in [[\w\._]], and the opening brace is
    in neither. *)
Hypothesis space_apart :
  forall c, space c = true -> Class.name_char word c = false.
Hypothesis brace_no_space : space "{"%char = false.
Hypothesis brace_no_name : Class.name_char word "{"%char = false.

Lemma match_class_pattern ws1 name ws2 body rest :
  Class.all_chars space ws1 = true ->
  Class.all_chars (Class.name_char word) name = true ->
  name <> EmptyString ->
  Class.all_chars space ws2 = true ->
  Class.balanced body = true ->
  Class.match_class space word Class.match_bracket
    ("class" +:+ ws1 +:+ name +:+ ws2 +:+ "{" +:+ body +:+ "}" +:+ rest)
  = Some (name, body, rest).
Proof.
  intros H1 Hn Hne H2 Hb. unfold Class.match_class.
  change (Class.strip_prefix "class" ("class" +:+ ?s)) with (Some s).
  cbn [mbind option_bind].
  destruct name as [|n name]; [congruence|]. clear Hne.
  pose proof Hn as Hn'. simpl in Hn'. apply andb_prop in Hn' as [Hn0 _].
  apply star_longest; [exact H1| |].
  { change (String n name +:+ ?t) with (String n (name +:+ t)).
    destruct (space n) eqn:Es; [|exact Es].
    apply space_apart in Es. congruence. }
  apply star_longest; [exact Hn| |].
  { destruct ws2 as [|w ws2]; [exact brace_no_name|].
    simpl in H2. apply andb_prop in H2 as [Hw _].
    change (String w ws2 +:+ ?t) with (String w (ws2 +:+ t)).
    apply space_apart, Hw. }
  cbn [Py.truthy].
  apply star_longest; [exact H2|exact brace_no_space|].
  change (Class.match_bracket ("{" +:+ ?s)) with (Class.close_at 0 s).
  change ("}" +:+ rest) with (String "}" rest).
  rewrite (close_at_balanced body 0 rest Hb). reflexivity.
Qed.

End ClassPattern.

(** C5.  When the trimmed input starts with [class], a name of one or more
    characters of [[\w._]] and a group [{ body }] with balanced braces,
    white space allowed before the name and before the group, one round of
    [process_class] is one call of the function-level expander, with the body
    and the prefix [prefix + name + "."], followed by [process_class] on the
    text that the call returns with the rest of the input behind it, under
    the original prefix.  White space and [\w] are what the [regex] library
    matches with [\s] and [\w]: classes without a common character, the
    opening brace in neither. *)
Theorem process_class_expands (DataPack : Type)
    (process_function :
       DataPack -> string -> string -> result (string * DataPack))
    (space word : ascii -> bool)
    depth self line prefix ws1 name ws2 body rest :
  (forall c, space c = true -> Class.name_char word c = false) ->
  space "{"%char = false ->
  Class.name_char word "{"%char = false ->
  Py.strip line
  = "class" +:+ ws1 +:+ name +:+ ws2 +:+ "{" +:+ body +:+ "}" +:+ rest ->
  Class.all_chars space ws1 = true ->
  Class.all_chars (Class.name_char word) name = true ->
  name <> EmptyString ->
  Class.all_chars space ws2 = true ->
  Class.balanced body = true ->
  Class.process_class DataPack process_function space word Class.match_bracket
    (S depth) self line prefix
  = '(remaining, self) ← process_function self body (prefix +:+ name +:+ ".");
    Class.process_class DataPack process_function space word
      Class.match_bracket depth self (remaining +:+ rest) prefix.
Proof.
  intros Ha Hb1 Hb2 E H1 Hn Hne H2 Hb. apply process_class_match. rewrite E.
  apply match_class_pattern; assumption.
Qed.

Lemma classes_apart c :
  Class.white_space c = true ->
  Class.name_char Class.word_character c = false.
Proof. destruct c as [[] [] [] [] [] [] [] []]; vm_compute; congruence. Qed.

Lemma process_class_expands_witness :
  (forall c, Class.white_space c = true ->
             Class.name_char Class.word_character c = false)
  /\ Class.white_space "{"%char = false
  /\ Class.name_char Class.word_character "{"%char = false
  /\ Py.strip " class A.b { f{ } } g "
     = "class" +:+ " " +:+ "A.b" +:+ " " +:+ "{" +:+ " f{ } " +:+ "}" +:+ " g"
  /\ Class.all_chars Class.white_space " " = true
  /\ Class.all_chars (Class.name_char Class.word_character) "A.b" = true
  /\ "A.b" <> EmptyString
  /\ Class.all_chars Class.white_space " " = true
  /\ Class.balanced " f{ } " = true
  /\ Class.process_class _ Class.recorder Class.white_space
       Class.word_character Class.match_bracket 3 []
       " class A.b { f{ } } g " "p."
     = '(remaining, self) ← Class.recorder [] " f{ } " ("p." +:+ "A.b" +:+ ".");
       Class.process_class _ Class.recorder Class.white_space
         Class.word_character Class.match_bracket 2
         self (remaining +:+ " g") "p.".
Proof.
  split; [exact classes_apart|]. split; [reflexivity|]. split; [reflexivity|].
  split; [reflexivity|]. split; [reflexivity|]. split; [reflexivity|].
  split; [discriminate|]. split; [reflexivity|]. split; [reflexivity|].
  apply (process_class_expands _ Class.recorder Class.white_space
           Class.word_character 2 [] " class A.b { f{ } } g "
           "p." " " "A.b" " " " f{ } " " g");
    [exact classes_apart|reflexivity|reflexivity|reflexivity|reflexivity
    |reflexivity|discriminate|reflexivity|reflexivity].
Defined.

(** ** Expression mode on an input without a token (C10) *)

Section NoToken.

Variable literal_eval : string -> result Py.literal.

Lemma space_not_quote c :
  Py.isspace c = true -> Py.mem c [Quote.SINGLE; Quote.DOUBLE] = false.
Proof. destruct c as [[] [] [] [] [] [] [] []]; vm_compute; congruence. Qed.

Ltac blank_done :=
  eexists; split; [reflexivity|]; repeat split; auto.

Lemma blank_step_scanner q self c q' col' :
  blank_inv q self ->
  blank_step q (Tokenizer.col self) c = Some (q', col') ->
  exists self',
    Tokenizer.step literal_eval false self c = Return self'
    /\ blank_inv q' self' /\ Tokenizer.col self' = col'.
Proof.
  intros (Hk & Hl & Hq) Hs. unfold blank_step in Hs.
  unfold Tokenizer.step. cbn [negb andb].
  destruct self. cbn in Hk, Hl, Hq, Hs. subst. setters. fields.
  remember (col + 1) as col1 eqn:Ecol1. clear Ecol1 col.
  destruct (Ascii.eqb c Re.SEMICOLON) eqn:Esemi; [discriminate|].
  destruct (Ascii.eqb c Re.NEW_LINE) eqn:Enl.
  { destruct q; simplify_eq; destruct Hq as [-> ->]; blank_done. }
  destruct q.
  - destruct Hq as [-> ->].
    destruct (Py.isspace c) eqn:Esp.
    { simplify_eq. pose proof (space_not_quote c Esp) as Hnq.
      destruct (Ascii.eqb c Re.SLASH) eqn:Eslash.
      { apply Ascii.eqb_eq in Eslash. subst c. discriminate. }
      unfold Tokenizer.in_keyword, Tokenizer.dispatch, Tokenizer.in_none.
      cbn. cbn in Hnq. rewrite Hnq, Esp. blank_done. }
    destruct (Ascii.eqb c Re.HASH) eqn:Ehash.
    { apply Ascii.eqb_eq in Ehash. subst c. cbn in Hs.
      destruct (col1 =? 1) eqn:Ecol; [|discriminate].
      apply Z.eqb_eq in Ecol. subst col1. simplify_eq. blank_done. }
    cbn in Hs.
    destruct (Ascii.eqb c Re.SLASH) eqn:Eslash; [|discriminate].
    apply Ascii.eqb_eq in Eslash. subst c. simplify_eq.
    destruct is_slash; blank_done.
  - destruct (Ascii.eqb c Re.SLASH) eqn:Eslash; [|discriminate].
    apply Ascii.eqb_eq in Eslash. subst c. simplify_eq.
    destruct Hq as [Hsl [[-> ->]|[-> ->]]]; cbn in Hsl; subst; blank_done.
  - destruct Hq as [-> ->]. simplify_eq.
    destruct (_ && _ && _); [blank_done|].
    unfold Tokenizer.in_keyword, Tokenizer.dispatch. cbn. blank_done.
Qed.

Lemma no_token_scan s : forall q self,
  blank_inv q self ->
  no_token_from q (Tokenizer.col self) s = true ->
  exists self' q',
    Tokenizer.scan literal_eval false self s = Return self'
    /\ blank_inv q' self' /\ q' <> AfterSlash.
Proof.
  induction s as [|c s IH]; intros q self Hinv H; simpl in H.
  - exists self, q. split; [reflexivity|]. split; [exact Hinv|].
    destruct q; congruence.
  - destruct (blank_step q (Tokenizer.col self) c) as [[q1 col1]|] eqn:Es;
      [|discriminate].
    destruct (blank_step_scanner q self c q1 col1 Hinv Es)
      as (self1 & E1 & Hinv1 & Hcol).
    subst col1. destruct (IH q1 self1 Hinv1 H) as (self' & q' & E & Hq).
    exists self', q'. split; [|exact Hq]. simpl. rewrite E1. exact E.
Qed.

Lemma no_token_finish q self :
  blank_inv q self -> q <> AfterSlash ->
  Tokenizer.finish false self = Raise IndexError.
Proof.
  intros (Hk & Hl & Hq) Hne. destruct self. cbn in Hk, Hl, Hq. subst.
  destruct q; [|congruence|]; destruct Hq as [-> ->]; reflexivity.
Qed.

(** C10, as the code has it.  In expression mode, on an input without a
    token and without a semicolon (empty, white space only, or white space
    and comments only) [parse] ends in [IndexError]: it reads the first
    element of an empty list of statements.  So does [parse_func_args] on a
    round bracket token whose text is [()]. *)
Theorem expression_without_token self string line col token :
  no_token col string = true ->
  Token.token_type token = Some TokenType.paren_round ->
  Token.string token = "()" ->
  value (Tokenizer.parse literal_eval false self string line col)
  = Raise IndexError
  /\ value (Tokenizer.parse_func_args literal_eval self token)
     = Raise IndexError.
Proof.
  assert (Hparse : forall self string line col,
             no_token col string = true ->
             Tokenizer.parse literal_eval false self string line col
             = Raise IndexError).
  { clear. intros self string line col H. unfold Tokenizer.parse.
    destruct (no_token_scan string Idle (Tokenizer.reset self line col))
      as (self' & q' & E & Hinv & Hq).
    - repeat split.
    - exact H.
    - rewrite E. cbn [mbind result_bind].
      apply (no_token_finish q' self' Hinv Hq). }
  intros H Hty Hstr. split.
  - rewrite (Hparse _ _ _ _ H). reflexivity.
  - unfold Tokenizer.parse_func_args, Tokenizer.is_type.
    rewrite Hty, Hstr. cbn [bool_decide negb].
    rewrite bool_decide_eq_true_2 by reflexivity. cbn [negb].
    rewrite Hparse by reflexivity. reflexivity.
Qed.

End NoToken.

Lemma expression_without_token_witness :
  let self := fresh_object "foo( // none" "main.jmc" in
  let token := Token.new (Some TokenType.paren_round) 1 4 "()" in
  no_token 4 " // none" = true
  /\ Token.token_type token = Some TokenType.paren_round
  /\ Token.string token = "()"
  /\ value (Tokenizer.parse unquote false self " // none" 1 4)
     = Raise IndexError
  /\ value (Tokenizer.parse_func_args unquote self token) = Raise IndexError.
Proof.
  split; [reflexivity|]. split; [reflexivity|]. split; [reflexivity|].
  apply (expression_without_token unquote
           (fresh_object "foo( // none" "main.jmc") " // none" 1 4
           (Token.new (Some TokenType.paren_round) 1 4 "()"));
    reflexivity.
Defined.

(** C10, at an input on which it fails: the comment [//;] holds no token,
    and expression mode raises the tokenizer's own error on it. *)
Lemma comment_with_semicolon :
  value (Tokenizer.parse unquote false (fresh_object "//;" "main.jmc")
           "//;" 1 1)
  = Raise (JMCSyntaxException
      ("In main.jmc" +:+ NL +:+ "Unexpected semicolon(;) at line 1 col 3."
       +:+ NL +:+ "//; <-")).
Proof. reflexivity. Qed.

(** ** Expression mode returns only after a keyword (C2) *)

Section ExpressionMode.

Variable literal_eval : string -> result Py.literal.

Lemma add_char_nonempty s c : Py.add_char s c <> EmptyString.
Proof. destruct s; discriminate. Qed.

Ltac expr_cases :=
  repeat first
    [ progress simplify_eq
    | raises
    | match goal with
      | H : mbind _ ?r = Return _ |- _ =>
          destruct r eqn:?; cbn [mbind result_bind] in H
      | H : (if ?b then _ else _) = _ |- _ => destruct b eqn:?
      | H : match ?x with _ => _ end = Return _ |- _ => destruct x eqn:?
      end ].

Ltac expr_done :=
  split; cbn; [assumption || reflexivity|];
  first [ discriminate
        | intros _; apply add_char_nonempty
        | assumption
        | intros ?; congruence ].

Ltac expr_open self :=
  destruct self; unfold expr_inv in *; unfold Tokenizer.unescaped_line_break in *;
  unfold Tokenizer.append_token, Tokenizer.append_keywords,
    Tokenizer.state_is in *;
  setters; fields.

Lemma on_new_line_expr self char self' :
  expr_inv self -> Tokenizer.on_new_line self char = Return self' ->
  expr_inv self'.
Proof.
  intros [Hl Ht] E. unfold Tokenizer.on_new_line in E. expr_open self.
  cbn in Hl, Ht, E. subst. expr_cases; expr_done.
Qed.

Lemma in_keyword_expr self char f :
  expr_inv self -> Tokenizer.in_keyword self char = Return f ->
  expr_inv (flow_self f).
Proof.
  intros [Hl Ht] E. unfold Tokenizer.in_keyword in E. expr_open self.
  cbn in Hl, Ht, E. subst. expr_cases; expr_done.
Qed.

Lemma in_none_expr self char f :
  Ascii.eqb char Re.SEMICOLON = false ->
  expr_inv self -> Tokenizer.in_none self char = Return f ->
  expr_inv (flow_self f).
Proof.
  intros Hc [Hl Ht] E. unfold Tokenizer.in_none in E. rewrite Hc in E.
  expr_open self. cbn in Hl, Ht, E. subst. expr_cases; expr_done.
Qed.

Lemma in_string_expr self char f :
  Tokenizer.state self = Some TokenType.string ->
  expr_inv self -> Tokenizer.in_string literal_eval self char = Return f ->
  expr_inv (flow_self f).
Proof.
  intros Hs [Hl Ht] E. unfold Tokenizer.in_string in E. expr_open self.
  cbn in Hs, Hl, Ht, E. subst. expr_cases; expr_done.
Qed.

Lemma in_paren_expr self char f :
  Tokenizer.state self = Some TokenType.paren ->
  expr_inv self -> Tokenizer.in_paren false self char = Return f ->
  expr_inv (flow_self f).
Proof.
  intros Hs [Hl Ht] E. unfold Tokenizer.in_paren in E. expr_open self.
  cbn in Hs, Hl, Ht, E. subst. expr_cases; expr_done.
Qed.

Lemma dispatch_expr self char f :
  Ascii.eqb char Re.SEMICOLON = false ->
  expr_inv self ->
  Tokenizer.dispatch literal_eval false self char = Return f ->
  expr_inv (flow_self f).
Proof.
  intros Hc H E. unfold Tokenizer.dispatch, Tokenizer.state_is in E.
  repeat case_bool_decide; simplify_eq;
    eauto using in_none_expr, in_string_expr, in_paren_expr.
Qed.

Lemma set_is_slash_expr b self :
  expr_inv self -> expr_inv (Tokenizer.set_is_slash b self).
Proof. intros H. exact H. Qed.

Lemma step_expr self char self' :
  expr_inv self ->
  Tokenizer.step literal_eval false self char = Return self' ->
  expr_inv self'.
Proof.
  intros H E. unfold Tokenizer.step in E. cbn [negb andb] in E.
  destruct (Ascii.eqb char Re.SEMICOLON) eqn:Hc; [raises|].
  destruct (_ =? Re.NEW_LINE)%char; [eapply on_new_line_expr, E; exact H|].
  destruct (_ && _ && _).
  { simplify_eq. destruct H as [Hl _]. split; [exact Hl|]. cbn. discriminate. }
  apply bind_Return_inv in E as (f & Ek & E).
  apply in_keyword_expr in Ek; [|exact H].
  destruct f as [s|s]; [simplify_eq; exact Ek|].
  apply bind_Return_inv in E as (f & Ed & E).
  apply dispatch_expr in Ed; [|exact Hc|exact Ek].
  destruct f; simplify_eq; exact Ed.
Qed.

Lemma scan_expr string : forall self self',
  expr_inv self ->
  Tokenizer.scan literal_eval false self string = Return self' ->
  expr_inv self'.
Proof.
  induction string as [|char rest IH]; intros self self' H E; simpl in E.
  - simplify_eq. exact H.
  - apply bind_Return_inv in E as (s & Es & E).
    eapply IH, E. eapply step_expr, Es. exact H.
Qed.

Lemma finish_expr self tokens self' :
  expr_inv self ->
  Tokenizer.finish false self = Return (Tokenizer.Statement tokens, self') ->
  exists before last,
    tokens = (before ++ [last])%list
    /\ Token.token_type last = Some TokenType.keyword.
Proof.
  intros [Hl Ht] E. unfold Tokenizer.finish in E.
  apply bind_Return_inv in E as (s1 & Ef & E).
  apply bind_Return_inv in E as ([] & Ec & E).
  apply bind_Return_inv in E as (p & Er & E). simplify_eq.
  unfold Tokenizer.returned in Er.
  apply bind_Return_inv in Er as (first & Ei & Er). simplify_eq.
  unfold Tokenizer.flush in Ef.
  destruct (Tokenizer.state_is self TokenType.keyword) eqn:Ek.
  2: { simplify_eq. rewrite Hl in Ei. discriminate. }
  apply bool_decide_eq_true in Ek. specialize (Ht Ek).
  destruct (String.eqb (Tokenizer.token self) EmptyString) eqn:Et.
  { apply String.eqb_eq in Et. contradiction. }
  cbn [negb] in Ef. unfold Tokenizer.append_token in Ef.
  destruct (Tokenizer.token_pos self) as [pos|]; [|discriminate].
  cbn [mbind result_bind negb] in Ef. simplify_eq.
  unfold Tokenizer.append_keywords in Ei. cbn in Ei.
  rewrite length_app, Hl in Ei. cbn in Ei.
  destruct (negb _) eqn:En.
  - injection Ei as <-. eexists _, _. split; [reflexivity|]. exact Ek.
  - apply negb_false_iff, Z.eqb_eq in En. lia.
Qed.

(** In expression mode [parse] returns a statement only when the input
    ends inside a keyword: the last token of every returned statement is a
    keyword token.  An input that ends in a string, a bracket group or a
    comma is never returned. *)
Theorem expression_returns_after_keyword self string line col tokens self' :
  Tokenizer.parse literal_eval false self string line col
  = Return (Tokenizer.Statement tokens, self') ->
  exists before last,
    tokens = (before ++ [last])%list
    /\ Token.token_type last = Some TokenType.keyword.
Proof.
  unfold Tokenizer.parse. intros E.
  apply bind_Return_inv in E as (s & Es & E).
  eapply finish_expr, E. eapply scan_expr, Es.
  split; [reflexivity|]. discriminate.
Qed.

End ExpressionMode.

(** ** Bracket tokens on inputs without a comment inside a group (C1) *)

Section Groups.

Variable literal_eval : string -> result Py.literal.
Variable expect_semicolon : bool.

Lemma group_run_snoc l r body c : forall d q e d1 q1 e1 d2 q2 e2,
  group_run l r d q e body = Some (d1, q1, e1) ->
  group_step l r d1 q1 e1 c = Inside d2 q2 e2 ->
  group_run l r d q e (Py.add_char body c) = Some (d2, q2, e2).
Proof.
  induction body as [|b body IH]; intros d q e d1 q1 e1 d2 q2 e2 Hr Hs;
    simpl in *.
  - simplify_eq. rewrite Hs. reflexivity.
  - destruct (group_step l r d q e b); [|discriminate]. eapply IH; eassumption.
Qed.

Lemma closes_at_end_snoc l r body c : forall d q e d1 q1 e1,
  group_run l r d q e body = Some (d1, q1, e1) ->
  group_step l r d1 q1 e1 c = Closed ->
  closes_at_end l r d q e (Py.add_char body c) = true.
Proof.
  induction body as [|b body IH]; intros d q e d1 q1 e1 Hr Hs; simpl in *.
  - simplify_eq. rewrite Hs. reflexivity.
  - destruct (group_step l r d q e b); [|discriminate]. eapply IH; eassumption.
Qed.

Ltac eqb_cases :=
  repeat match goal with
    | |- context [Ascii.eqb ?a ?b] =>
        destruct (Ascii.eqb_spec a b); subst; try congruence; try discriminate
    end.

Ltac grp_run :=
  eapply group_run_snoc; [eassumption|];
  unfold group_step, Py.mem; cbn [existsb orb]; eqb_cases;
  try reflexivity.

Lemma in_paren_group ab self char f :
  Ascii.eqb char Re.NEW_LINE = false ->
  Tokenizer.state self = Some TokenType.paren ->
  group_inv ab self ->
  Tokenizer.in_paren expect_semicolon self char = Return f ->
  group_inv (Ascii.eqb char Re.BACKSLASH) (flow_self f).
Proof.
  intros Hnl Hst (Hk & Hl & Hsl & Hab & Hs) E.
  rewrite Hst in Hs.
  destruct Hs as (l & r & body & d & Hp & Hl0 & Hr0 & Ht & Hc & Hrun & Hq & He).
  unfold Tokenizer.in_paren in E. destruct self.
  cbn in Hk, Hl, Hsl, Hab, Hst, Hl0, Hr0, Ht, Hc, Hrun, Hq, He. subst.
  revert E. setters. fields. intros E.
  destruct is_string.
  - destruct (Hq eq_refl) as [-> | ->]; clear Hq He.
    all: destruct is_escaped; cbn [negb andb] in E.
    all: rewrite ?andb_false_r, ?andb_true_r in E.
    all: destruct (Ascii.eqb char Re.BACKSLASH) eqn:Ebs.
    all: try case_bool_decide.
    all: simplify_eq.
    all: cbn [flow_self].
    all: unfold group_inv; fields.
    all: repeat split; try assumption; try discriminate; try reflexivity.
    all: eexists l, r, (Py.add_char body _), d.
    all: repeat split; auto; try discriminate.
    all: try grp_run.
  - specialize (He eq_refl). subst is_escaped. clear Hq Hab.
    assert (Hpair : bracket_pair l r) by exact Hp.
    destruct (bool_decide (Some char = Some r)) eqn:Er.
    + apply bool_decide_eq_true in Er. injection Er as ->.
      destruct d as [|d].
      * rewrite bool_decide_eq_true_2 in E by reflexivity. cbn [andb] in E.
        destruct Hp as [[-> ->]|[[-> ->]|[-> ->]]].
        all: repeat
               first [ rewrite bool_decide_eq_true_2 in E by reflexivity
                     | rewrite bool_decide_eq_false_2 in E by discriminate ].
        all: unfold Tokenizer.append_token in E; revert E.
        all: setters; fields; intros E.
        all: destruct token_pos as [pos|]; [|discriminate].
        all: cbn [mbind result_bind] in E; simplify_eq.
        all: match goal with
             | |- context [Token.new ?k ?a ?b ?t] =>
                 assert (Hw : well_bracketed (Token.new k a b t) = true)
                   by (unfold well_bracketed, balanced_group; cbn;
                       eapply closes_at_end_snoc; [exact Hrun|reflexivity]);
                 generalize dependent (Token.new k a b t); intros tok Hw
             end.
        all: try destruct expect_semicolon.
        all: unfold Tokenizer.append_keywords; fields.
        all: try destruct (negb _).
        all: unfold group_inv; setters; fields.
        all: repeat split; auto; try discriminate.
        all: repeat (apply Forall_app; split; auto).
        constructor; [|constructor]. apply Forall_app. auto.
      * rewrite bool_decide_eq_false_2 in E by (intros [=]; lia).
        cbn [andb] in E.
        destruct Hp as [[-> ->]|[[-> ->]|[-> ->]]].
        all: rewrite bool_decide_eq_false_2 in E by discriminate.
        all: simplify_eq; cbn [flow_self]; unfold group_inv; fields.
        all: repeat split; auto; try discriminate.
        all: eexists _, _, (Py.add_char body _), d.
        all: repeat split; auto; try discriminate; try (f_equal; lia).
        all: grp_run.
    + apply bool_decide_eq_false in Er. cbn [andb] in E.
      destruct (bool_decide (Some char = Some l)) eqn:El.
      * apply bool_decide_eq_true in El. injection El as ->.
        simplify_eq; cbn [flow_self]; unfold group_inv; fields.
        repeat split; auto; try discriminate.
        eexists _, _, (Py.add_char body _), (S d).
        repeat split; auto; try discriminate; try (f_equal; lia).
        grp_run.
      * apply bool_decide_eq_false in El.
        destruct (Py.mem char [Quote.SINGLE; Quote.DOUBLE]) eqn:Em.
        -- assert (Hc : char = Quote.SINGLE \/ char = Quote.DOUBLE).
           { unfold Py.mem in Em. cbn [existsb] in Em.
             destruct (Ascii.eqb_spec char Quote.SINGLE); [auto|].
             destruct (Ascii.eqb_spec char Quote.DOUBLE); [auto|].
             discriminate. }
           simplify_eq; cbn [flow_self]; unfold group_inv; fields.
           repeat split; auto; try discriminate.
           eexists _, _, (Py.add_char body _), d.
           repeat split; auto; try discriminate.
           ++ destruct Hc as [-> | ->]; grp_run.
           ++ intros _. destruct Hc as [-> | ->]; auto.
        -- simplify_eq; cbn [flow_self]; unfold group_inv; fields.
           repeat split; auto; try discriminate.
           eexists _, _, (Py.add_char body _), d.
           repeat split; auto; try discriminate.
           eapply group_run_snoc; [eassumption|].
           unfold group_step. rewrite Em.
           destruct (Ascii.eqb_spec char r); [congruence|].
           destruct (Ascii.eqb_spec char l); [congruence|]. reflexivity.
Qed.

Lemma on_new_line_group self self' :
  group_inv false self ->
  Tokenizer.on_new_line self Re.NEW_LINE = Return self' ->
  group_inv false self'.
Proof.
  intros (Hk & Hl & Hsl & Hab & Hs) E.
  unfold Tokenizer.on_new_line, Tokenizer.state_is in E. destruct self.
  cbn in Hk, Hl, Hsl, Hab, Hs. subst.
  destruct is_escaped; [specialize (Hab eq_refl); discriminate|]. clear Hab.
  revert E. unfold Tokenizer.unescaped_line_break, Tokenizer.append_token.
  setters. fields. intros E.
  destruct state as [[]|]; try contradiction.
  all: repeat
         first [ rewrite bool_decide_eq_true_2 in E by reflexivity
               | rewrite bool_decide_eq_false_2 in E by discriminate ].
  all: try (apply bind_Return_inv in E as (s1 & E1 & E); raises).
  - destruct token_pos as [pos|]; [|discriminate].
    cbn [mbind result_bind] in E. simplify_eq.
    unfold group_inv; fields. destruct Hs as [-> _].
    repeat split; auto.
    apply Forall_app. split; [exact Hk|]. constructor; [reflexivity|constructor].
  - cbn [mbind result_bind] in E. simplify_eq.
    destruct Hs as (l & r & body & d & Hp & -> & -> & -> & -> & Hrun & Hq & He).
    unfold group_inv; fields. repeat split; auto; try discriminate.
    eexists l, r, (Py.add_char body _), d.
    repeat split; auto.
    destruct is_string.
    + destruct (Hq eq_refl) as [-> | ->]; grp_run.
    + destruct Hp as [[-> ->]|[[-> ->]|[-> ->]]]; grp_run.
  - cbn [mbind result_bind] in E. simplify_eq.
    unfold group_inv; fields. destruct Hs as (-> & -> & _).
    repeat split; auto; discriminate.
  - cbn [mbind result_bind] in E. simplify_eq.
    unfold group_inv; fields. destruct Hs as (-> & -> & _).
    repeat split; auto; discriminate.
Qed.

Lemma group_inv_weaken ab ab' self :
  group_inv ab self -> Tokenizer.is_escaped self = false -> group_inv ab' self.
Proof.
  intros (Hk & Hl & Hsl & Hab & Hs) He. repeat split; auto.
  rewrite He. discriminate.
Qed.

Lemma in_keyword_group ab ab' self char f :
  group_inv ab self ->
  Tokenizer.in_keyword self char = Return f ->
  match f with
  | Tokenizer.Continue s => group_inv ab' s
  | Tokenizer.Next s => group_inv ab s
  end.
Proof.
  intros H E. unfold Tokenizer.in_keyword, Tokenizer.state_is in E.
  case_bool_decide as Hst; [|simplify_eq; exact H].
  destruct H as (Hk & Hl & Hsl & Hab & Hs). rewrite Hst in Hs.
  destruct Hs as [Hs He]. destruct self. cbn in *. subst.
  revert E. unfold Tokenizer.append_token. setters. fields. intros E.
  destruct (_ || _).
  - apply bind_Return_inv in E as (s1 & E1 & E).
    destruct token_pos as [pos|]; [|discriminate]. simplify_eq.
    unfold group_inv; fields. repeat split; auto; try discriminate.
    apply Forall_app. split; [exact Hk|]. constructor; [reflexivity|constructor].
  - simplify_eq. unfold group_inv; fields. repeat split; auto; discriminate.
Qed.

Lemma in_none_group ab ab' self char f :
  Tokenizer.state self = None ->
  group_inv ab self ->
  Tokenizer.in_none self char = Return f ->
  group_inv ab' (flow_self f).
Proof.
  intros Hst (Hk & Hl & Hsl & Hab & Hs) E. rewrite Hst in Hs.
  destruct Hs as (Ht & Hs & He). unfold Tokenizer.in_none in E.
  destruct self. cbn in Hst, Hk, Hl, Hsl, Hab, Ht, Hs, He. subst.
  revert E. unfold Tokenizer.append_token, Tokenizer.append_keywords.
  setters. fields. intros E.
  destruct (Py.mem char [Quote.SINGLE; Quote.DOUBLE]).
  { simplify_eq. unfold group_inv; fields. repeat split; auto; discriminate. }
  destruct (Py.isspace char).
  { simplify_eq. unfold group_inv; fields. repeat split; auto; discriminate. }
  destruct (Ascii.eqb char Re.SEMICOLON).
  { simplify_eq. cbn [flow_self]. destruct (negb _).
    - unfold group_inv; fields. repeat split; auto; try discriminate.
      apply Forall_app. split; [exact Hl|]. constructor; [exact Hk|constructor].
    - unfold group_inv; fields. repeat split; auto; discriminate. }
  destruct (Py.mem char [Paren.L_CURLY; Paren.L_ROUND; Paren.L_SQUARE]) eqn:Eo.
  { simplify_eq. unfold group_inv; fields. repeat split; auto; try discriminate.
    assert (Hc : char = Paren.L_CURLY \/ char = Paren.L_ROUND
                 \/ char = Paren.L_SQUARE).
    { unfold Py.mem in Eo. cbn [existsb] in Eo.
      destruct (Ascii.eqb_spec char Paren.L_CURLY); [auto|].
      destruct (Ascii.eqb_spec char Paren.L_ROUND); [auto|].
      destruct (Ascii.eqb_spec char Paren.L_SQUARE); [auto|].
      discriminate. }
    destruct Hc as [-> | [-> | ->]].
    - exists Paren.L_CURLY, Paren.R_CURLY, EmptyString, 0%nat.
      repeat split; auto; try discriminate. left. auto.
    - exists Paren.L_ROUND, Paren.R_ROUND, EmptyString, 0%nat.
      repeat split; auto; try discriminate. right. left. auto.
    - exists Paren.L_SQUARE, Paren.R_SQUARE, EmptyString, 0%nat.
      repeat split; auto; try discriminate. right. right. auto. }
  destruct (Py.mem char [Paren.R_CURLY; Paren.R_ROUND; Paren.R_SQUARE]);
    [raises|].
  destruct (_ && _).
  { simplify_eq. unfold group_inv; fields. repeat split; auto; discriminate. }
  destruct (Ascii.eqb char Re.COMMA).
  { simplify_eq. unfold group_inv; fields. repeat split; auto; try discriminate.
    apply Forall_app. split; [exact Hk|]. constructor; [reflexivity|constructor]. }
  simplify_eq. unfold group_inv; fields. repeat split; auto; discriminate.
Qed.

Lemma in_string_group ab self char f :
  Tokenizer.state self = Some TokenType.string ->
  group_inv ab self ->
  Tokenizer.in_string literal_eval self char = Return f ->
  group_inv (Ascii.eqb char Re.BACKSLASH) (flow_self f).
Proof.
  intros Hst (Hk & Hl & Hsl & Hab & Hs) E. rewrite Hst in Hs.
  unfold Tokenizer.in_string in E.
  destruct self. cbn in Hst, Hk, Hl, Hsl, Hab, Hs. subst.
  revert E. unfold Tokenizer.append_token. setters. fields. intros E.
  destruct is_escaped; cbn [negb] in E;
    rewrite ?andb_false_r, ?andb_true_r in E.
  - simplify_eq. unfold group_inv; fields. repeat split; auto; discriminate.
  - destruct (Ascii.eqb char Re.BACKSLASH) eqn:Ebs.
    { simplify_eq. unfold group_inv; fields. repeat split; auto. }
    destruct (bool_decide _).
    + apply bind_Return_inv in E as (decoded & _ & E).
      destruct decoded as [decoded| |]; [|raises|raises].
      apply bind_Return_inv in E as (s1 & E1 & E).
      destruct token_pos as [pos|]; [|discriminate]. simplify_eq.
      unfold group_inv; fields. repeat split; auto; try discriminate.
      apply Forall_app. split; [exact Hk|].
      constructor; [reflexivity|constructor].
    + simplify_eq. unfold group_inv; fields.
      repeat split; auto; discriminate.
Qed.

Lemma group_inv_state ab self :
  group_inv ab self ->
  Tokenizer.state self <> Some TokenType.string ->
  Tokenizer.state self <> Some TokenType.paren ->
  Tokenizer.is_escaped self = false.
Proof.
  intros (_ & _ & _ & _ & Hs) H1 H2.
  destruct (Tokenizer.state self) as [[]|]; try contradiction;
    try congruence; tauto.
Qed.

Lemma dispatch_group ab self char f :
  Ascii.eqb char Re.NEW_LINE = false ->
  group_inv ab self ->
  Tokenizer.dispatch literal_eval expect_semicolon self char = Return f ->
  group_inv (Ascii.eqb char Re.BACKSLASH) (flow_self f).
Proof.
  intros Hnl H E. unfold Tokenizer.dispatch, Tokenizer.state_is in E.
  case_bool_decide as H0; [eapply in_none_group; eassumption|].
  case_bool_decide as H1; [eapply in_string_group; eassumption|].
  case_bool_decide as H2; [eapply in_paren_group; eassumption|].
  simplify_eq. cbn [flow_self].
  eapply group_inv_weaken; [exact H|]. eapply group_inv_state; eassumption.
Qed.

Lemma step_group ab self char self' :
  Ascii.eqb char Re.SLASH = false ->
  ab && Ascii.eqb char Re.NEW_LINE = false ->
  group_inv ab self ->
  Tokenizer.step literal_eval expect_semicolon self char = Return self' ->
  group_inv (Ascii.eqb char Re.BACKSLASH) self'.
Proof.
  intros Hsl Hab H E. unfold Tokenizer.step in E.
  destruct (negb expect_semicolon && _); [raises|].
  destruct (Ascii.eqb char Re.NEW_LINE) eqn:Enl.
  { apply Ascii.eqb_eq in Enl. subst char.
    rewrite andb_true_r in Hab. subst ab.
    eapply on_new_line_group, E. exact H. }
  rewrite Hsl in E. cbn [andb] in E.
  apply bind_Return_inv in E as (f & Ek & E).
  apply (in_keyword_group ab (Ascii.eqb char Re.BACKSLASH)) in Ek; [|exact H].
  destruct f as [s|s]; [simplify_eq; exact Ek|].
  apply bind_Return_inv in E as (f & Ed & E).
  apply (dispatch_group ab) in Ed; [|exact Enl|exact Ek].
  destruct f as [s1|s1]; simplify_eq; [exact Ed|].
  destruct Ed as (Hk & Hl & _ & Hab' & Hrest).
  split; [exact Hk|]. split; [exact Hl|]. split; [|split; [exact Hab'|exact Hrest]].
  cbn. first [exact Hsl | reflexivity].
Qed.

Lemma scan_group string : forall ab self self',
  plain_from ab string = true ->
  group_inv ab self ->
  Tokenizer.scan literal_eval expect_semicolon self string = Return self' ->
  exists ab', group_inv ab' self'.
Proof.
  induction string as [|char rest IH]; intros ab self self' Hp H E;
    simpl in Hp, E.
  - simplify_eq. exists ab. exact H.
  - apply andb_prop in Hp as [Hp Hrest]. apply andb_prop in Hp as [Hsl Hnl].
    apply negb_true_iff in Hsl, Hnl.
    apply bind_Return_inv in E as (s & Es & E).
    eapply IH; [exact Hrest| |exact E].
    eapply step_group; eassumption.
Qed.

Lemma flush_group ab self self' :
  group_inv ab self ->
  Tokenizer.flush expect_semicolon self = Return self' ->
  Forall (Forall (fun tok => well_bracketed tok = true))
    (Tokenizer.list_of_tokens self').
Proof.
  intros (Hk & Hl & _ & _ & Hs) E.
  unfold Tokenizer.flush, Tokenizer.state_is in E.
  case_bool_decide as Hst; [|simplify_eq; exact Hl].
  apply bind_Return_inv in E as (s2 & Ea & E). simplify_eq.
  assert (H2 : Forall (fun tok => well_bracketed tok = true)
                 (Tokenizer.keywords s2)
               /\ Tokenizer.list_of_tokens s2 = Tokenizer.list_of_tokens self).
  { destruct (negb _); [|simplify_eq; auto].
    unfold Tokenizer.append_token in Ea.
    destruct (Tokenizer.token_pos self) as [pos|]; [|discriminate].
    simplify_eq. cbn. split; [|reflexivity].
    apply Forall_app. split; [exact Hk|].
    constructor; [|constructor]. rewrite Hst. reflexivity. }
  destruct H2 as [Hk2 Hl2].
  destruct (negb expect_semicolon); [|rewrite Hl2; exact Hl].
  unfold Tokenizer.append_keywords.
  destruct (negb (Z.of_nat _ =? 0)); [|rewrite Hl2; exact Hl].
  cbn. rewrite Hl2. apply Forall_app. split; [exact Hl|].
  constructor; [exact Hk2|constructor].
Qed.

(** On an input without a slash, and without a line break right after a
    backslash, every token that [parse] emits, in either mode, is well
    bracketed: a bracket token starts with its opening bracket, ends with
    the closing bracket that matches it, and is balanced in between, the
    brackets inside its string literals left out. *)
Theorem bracket_tokens_balanced self string line col :
  plain string = true ->
  Forall (fun tok => well_bracketed tok = true)
    (emitted (Tokenizer.parse literal_eval expect_semicolon self string line col)).
Proof.
  intros Hp.
  destruct (Tokenizer.parse _ _ _ _ _ _) as [[p s]|] eqn:E; [|constructor].
  unfold Tokenizer.parse in E.
  apply bind_Return_inv in E as (s0 & Es & E).
  apply scan_group with (ab := false) in Es as [ab H]; [|exact Hp|].
  2: { repeat split; auto; try discriminate; constructor. }
  unfold Tokenizer.finish in E.
  apply bind_Return_inv in E as (s1 & Ef & E).
  apply bind_Return_inv in E as ([] & _ & E).
  apply bind_Return_inv in E as (q & Er & E). simplify_eq.
  apply (flush_group ab) in Ef; [|exact H].
  unfold Tokenizer.returned in Er. destruct expect_semicolon.
  - simplify_eq. cbn. apply Forall_concat, Ef.
  - apply bind_Return_inv in Er as (first & Ei & Er). simplify_eq. cbn.
    apply index_In in Ei. rewrite Forall_forall in Ef. apply Ef.
    apply list_elem_of_In, Ei.
Qed.

End Groups.

Example bracket_tokens_balanced_example :
  plain "f({ 'a)' [b] }, (c));" = true
  /\ emitted (Tokenizer.parse unquote true
                (fresh_object "f({ 'a)' [b] }, (c));" "main.jmc")
                "f({ 'a)' [b] }, (c));" 1 1)
     = [Token.new (Some TokenType.keyword) 1 1 "f";
        Token.new (Some TokenType.paren_round) 1 2 "({ 'a)' [b] }, (c))"].
Proof. split; reflexivity. Qed.

(** * Further properties of the tokenizer *)

(** ** Statements are never empty, and tokens carry final kinds *)

Section Shape.

Variable literal_eval : string -> result Py.literal.
Variable expect_semicolon : bool.

Lemma mem_openers c :
  Py.mem c [Paren.L_CURLY; Paren.L_ROUND; Paren.L_SQUARE] = true ->
  opening_bracket (Some c).
Proof.
  unfold Py.mem, opening_bracket. cbn [existsb].
  destruct (Ascii.eqb_spec c Paren.L_CURLY); [subst; auto|].
  destruct (Ascii.eqb_spec c Paren.L_ROUND); [subst; auto|].
  destruct (Ascii.eqb_spec c Paren.L_SQUARE); [subst; auto|].
  discriminate.
Qed.

Lemma append_keywords_shape self :
  shape_inv self -> shape_inv (Tokenizer.append_keywords self).
Proof.
  intros (Hk & Hl & Hp). unfold Tokenizer.append_keywords.
  destruct (negb _) eqn:En; [|repeat split; assumption].
  repeat split; cbn; [constructor| |exact Hp].
  apply Forall_app. split; [exact Hl|]. constructor; [|constructor].
  split; [|exact Hk]. intros E. rewrite E in En. discriminate.
Qed.

Ltac shape_open self E :=
  destruct self;
  unfold Tokenizer.unescaped_line_break in E;
  unfold Tokenizer.append_token, Tokenizer.state_is in E;
  revert E; setters; fields; intros E.

Ltac shape_cases :=
  repeat first
    [ progress simplify_eq
    | raises
    | match goal with
      | H : mbind _ ?r = Return _ |- _ =>
          destruct r eqn:?; cbn [mbind result_bind] in H
      | H : (if ?b then _ else _) = _ |- _ => destruct b eqn:?
      | H : match ?x with _ => _ end = Return _ |- _ => destruct x eqn:?
      end ].

Ltac shape_done :=
  repeat match goal with
    | H : bool_decide _ = true |- _ => apply bool_decide_eq_true in H
    | H : bool_decide _ = false |- _ => apply bool_decide_eq_false in H
    end;
  simplify_eq; cbn [flow_self];
  try match goal with
    | |- context [if ?b then _ else _] => destruct b
    end;
  try apply append_keywords_shape;
  unfold shape_inv; fields;
  repeat match goal with
    | |- _ /\ _ => split
    | |- Forall _ (_ ++ _) => apply Forall_app
    | |- Forall _ [_] => constructor
    | |- Forall _ [] => constructor
    | |- _ -> _ => intros ?
    end;
  first [ assumption | reflexivity | discriminate | congruence
        | solve [eauto using mem_openers]
        | match goal with
          | H : opening_bracket _ |- _ => destruct H as [?|[?|?]]; congruence
          end
        | idtac ].

Lemma on_new_line_shape self char self' :
  shape_inv self -> Tokenizer.on_new_line self char = Return self' ->
  shape_inv self'.
Proof.
  intros (Hk & Hl & Hp) E. unfold Tokenizer.on_new_line in E.
  shape_open self E. cbn in Hk, Hl, Hp. subst. shape_cases; shape_done.
Qed.

Lemma in_keyword_shape self char f :
  shape_inv self -> Tokenizer.in_keyword self char = Return f ->
  shape_inv (flow_self f).
Proof.
  intros (Hk & Hl & Hp) E. unfold Tokenizer.in_keyword in E.
  shape_open self E. cbn in Hk, Hl, Hp. subst. shape_cases; shape_done.
Qed.

Lemma in_none_shape self char f :
  shape_inv self -> Tokenizer.in_none self char = Return f ->
  shape_inv (flow_self f).
Proof.
  intros (Hk & Hl & Hp) E. unfold Tokenizer.in_none in E.
  shape_open self E. cbn in Hk, Hl, Hp. subst. shape_cases; shape_done.
Qed.

Lemma in_string_shape self char f :
  Tokenizer.state self = Some TokenType.string ->
  shape_inv self -> Tokenizer.in_string literal_eval self char = Return f ->
  shape_inv (flow_self f).
Proof.
  intros Hs (Hk & Hl & Hp) E. unfold Tokenizer.in_string in E.
  shape_open self E. cbn in Hs, Hk, Hl, Hp. subst. shape_cases; shape_done.
Qed.

Lemma in_paren_shape self char f :
  Tokenizer.state self = Some TokenType.paren ->
  shape_inv self ->
  Tokenizer.in_paren expect_semicolon self char = Return f ->
  shape_inv (flow_self f).
Proof.
  intros Hs (Hk & Hl & Hp) E. unfold Tokenizer.in_paren in E.
  shape_open self E. cbn in Hs, Hk, Hl, Hp. subst.
  specialize (Hp eq_refl). shape_cases; shape_done.
Qed.

Lemma dispatch_shape self char f :
  shape_inv self ->
  Tokenizer.dispatch literal_eval expect_semicolon self char = Return f ->
  shape_inv (flow_self f).
Proof.
  intros H E. unfold Tokenizer.dispatch, Tokenizer.state_is in E.
  repeat case_bool_decide; simplify_eq;
    eauto using in_none_shape, in_string_shape, in_paren_shape.
Qed.

Lemma step_shape self char self' :
  shape_inv self ->
  Tokenizer.step literal_eval expect_semicolon self char = Return self' ->
  shape_inv self'.
Proof.
  intros H E. unfold Tokenizer.step in E.
  destruct (negb expect_semicolon && _); [raises|].
  destruct (_ =? Re.NEW_LINE)%char; [eapply on_new_line_shape, E; exact H|].
  destruct (_ && _ && _).
  { simplify_eq. destruct H as (Hk & Hl & _).
    split; [exact Hk|]. split; [exact Hl|]. cbn. discriminate. }
  apply bind_Return_inv in E as (f & Ek & E).
  apply in_keyword_shape in Ek; [|exact H].
  destruct f as [s|s]; [simplify_eq; exact Ek|].
  apply bind_Return_inv in E as (f & Ed & E).
  apply dispatch_shape in Ed; [|exact Ek].
  destruct f; simplify_eq; exact Ed.
Qed.

Lemma scan_shape string : forall self self',
  shape_inv self ->
  Tokenizer.scan literal_eval expect_semicolon self string = Return self' ->
  shape_inv self'.
Proof.
  induction string as [|char rest IH]; intros self self' H E; simpl in E.
  - simplify_eq. exact H.
  - apply bind_Return_inv in E as (s & Es & E).
    eapply IH, E. eapply step_shape, Es. exact H.
Qed.

Lemma flush_shape self self' :
  shape_inv self -> Tokenizer.flush expect_semicolon self = Return self' ->
  shape_inv self'.
Proof.
  intros H E. unfold Tokenizer.flush, Tokenizer.state_is in E.
  case_bool_decide as Hst; [|simplify_eq; exact H].
  apply bind_Return_inv in E as (s & Ea & E). simplify_eq.
  assert (Hs : shape_inv s).
  { destruct (negb _); [|simplify_eq; exact H].
    unfold Tokenizer.append_token in Ea.
    destruct (Tokenizer.token_pos self) as [pos|]; [|discriminate].
    simplify_eq. destruct H as (Hk & Hl & Hp).
    split; [|split; [exact Hl|cbn; discriminate]].
    cbn. apply Forall_app. split; [exact Hk|].
    constructor; [|constructor]. cbn. rewrite Hst. reflexivity. }
  destruct (negb expect_semicolon); [apply append_keywords_shape|]; exact Hs.
Qed.

Lemma parse_shape self string line col p self' :
  Tokenizer.parse literal_eval expect_semicolon self string line col
  = Return (p, self') ->
  match p with
  | Tokenizer.Program statements =>
      Forall (fun st => st <> []
                /\ Forall (fun tok => emitted_kind (Token.token_type tok) = true)
                     st) statements
  | Tokenizer.Statement tokens =>
      tokens <> []
      /\ Forall (fun tok => emitted_kind (Token.token_type tok) = true) tokens
  end.
Proof.
  unfold Tokenizer.parse, Tokenizer.finish. intros E.
  apply bind_Return_inv in E as (s0 & Es & E).
  apply bind_Return_inv in E as (s1 & Ef & E).
  apply bind_Return_inv in E as ([] & _ & E).
  apply bind_Return_inv in E as (q & Er & E). simplify_eq.
  apply scan_shape in Es;
    [|repeat split; [constructor|constructor|cbn; discriminate]].
  apply flush_shape in Ef; [|exact Es]. destruct Ef as (_ & Hl & _).
  unfold Tokenizer.returned in Er. destruct expect_semicolon.
  - simplify_eq. exact Hl.
  - apply bind_Return_inv in Er as (first & Ei & Er). simplify_eq.
    apply index_In in Ei. rewrite Forall_forall in Hl. apply Hl.
    apply list_elem_of_In, Ei.
Qed.

(** A statement that [parse] returns is never empty: in statement mode
    every statement of the program holds a token, and so does the statement
    returned in expression mode. *)
Theorem statements_not_empty self string line col :
  Forall (fun st => st <> [])
    (returned_statements
       (Tokenizer.parse literal_eval expect_semicolon self string line col)).
Proof.
  destruct (Tokenizer.parse _ _ _ _ _ _) as [[p s]|] eqn:E; [|constructor].
  apply parse_shape in E. destruct p; cbn.
  - eapply Forall_impl; [exact E|]. intros st [H _]. exact H.
  - constructor; [apply E|constructor].
Qed.

(** A token that [parse] emits is a keyword, a comma, a string or one of
    the three bracket kinds: the scanner states [paren] and [comment] never
    reach a token, and no token is left without a kind. *)
Theorem emitted_kinds self string line col :
  Forall (fun tok => emitted_kind (Token.token_type tok) = true)
    (emitted (Tokenizer.parse literal_eval expect_semicolon self string line col)).
Proof.
  destruct (Tokenizer.parse _ _ _ _ _ _) as [[p s]|] eqn:E; [|constructor].
  apply parse_shape in E. destruct p; cbn.
  - apply Forall_concat. eapply Forall_impl; [exact E|]. intros st [_ H].
    exact H.
  - apply E.
Qed.

End Shape.

(** ** A semicolon in expression mode; a source without a token *)

Section Edges.

Variable literal_eval : string -> result Py.literal.

Lemma scan_semicolon string : forall self,
  Py.contains Re.SEMICOLON string = true ->
  exists e, Tokenizer.scan literal_eval false self string = Raise e.
Proof.
  induction string as [|c rest IH]; intros self H; simpl in H;
    [discriminate|].
  simpl. destruct (Tokenizer.step literal_eval false self c) as [s|e] eqn:Es.
  - cbn [mbind result_bind].
    destruct (Ascii.eqb c Re.SEMICOLON) eqn:Ec.
    + unfold Tokenizer.step in Es. rewrite Ec in Es. cbn [negb andb] in Es.
      raises.
    + apply IH. exact H.
  - exists e. reflexivity.
Qed.

(** In expression mode a source that holds a semicolon anywhere, also
    inside a string, a bracket group or a comment, is never tokenized:
    [parse] raises. *)
Theorem expression_with_semicolon self string line col :
  Py.contains Re.SEMICOLON string = true ->
  exists e,
    value (Tokenizer.parse literal_eval false self string line col) = Raise e.
Proof.
  intros H. unfold Tokenizer.parse.
  destruct (scan_semicolon string (Tokenizer.reset self line col) H) as [e E].
  exists e. rewrite E. reflexivity.
Qed.

Ltac blank_close :=
  eexists; split; [reflexivity|]; repeat split; auto.

Lemma blank_step_scanner_mode expect_semicolon q self c q' col' :
  blank_inv q self ->
  blank_step q (Tokenizer.col self) c = Some (q', col') ->
  exists self',
    Tokenizer.step literal_eval expect_semicolon self c = Return self'
    /\ blank_inv q' self' /\ Tokenizer.col self' = col'.
Proof.
  destruct expect_semicolon; [|apply blank_step_scanner].
  intros (Hk & Hl & Hq) Hs. unfold blank_step in Hs.
  unfold Tokenizer.step. cbn [negb andb].
  destruct self. cbn in Hk, Hl, Hq, Hs. subst. setters. fields.
  remember (col + 1) as col1 eqn:Ecol1. clear Ecol1 col.
  destruct (Ascii.eqb c Re.SEMICOLON) eqn:Esemi; [discriminate|].
  destruct (Ascii.eqb c Re.NEW_LINE) eqn:Enl.
  { destruct q; simplify_eq; destruct Hq as [-> ->]; blank_close. }
  destruct q.
  - destruct Hq as [-> ->].
    destruct (Py.isspace c) eqn:Esp.
    { simplify_eq. pose proof (space_not_quote c Esp) as Hnq.
      destruct (Ascii.eqb c Re.SLASH) eqn:Eslash.
      { apply Ascii.eqb_eq in Eslash. subst c. discriminate. }
      unfold Tokenizer.in_keyword, Tokenizer.dispatch, Tokenizer.in_none.
      cbn. cbn in Hnq. rewrite Hnq, Esp. blank_close. }
    destruct (Ascii.eqb c Re.HASH) eqn:Ehash.
    { apply Ascii.eqb_eq in Ehash. subst c. cbn in Hs.
      destruct (col1 =? 1) eqn:Ecol; [|discriminate].
      apply Z.eqb_eq in Ecol. subst col1. simplify_eq. blank_close. }
    cbn in Hs.
    destruct (Ascii.eqb c Re.SLASH) eqn:Eslash; [|discriminate].
    apply Ascii.eqb_eq in Eslash. subst c. simplify_eq.
    destruct is_slash; blank_close.
  - destruct (Ascii.eqb c Re.SLASH) eqn:Eslash; [|discriminate].
    apply Ascii.eqb_eq in Eslash. subst c. simplify_eq.
    destruct Hq as [Hsl [[-> ->]|[-> ->]]]; cbn in Hsl; subst; blank_close.
  - destruct Hq as [-> ->]. simplify_eq.
    destruct (_ && _ && _); [blank_close|].
    unfold Tokenizer.in_keyword, Tokenizer.dispatch. cbn. blank_close.
Qed.

Lemma empty_step_scanner q self c q' col' :
  blank_inv q self ->
  empty_step q (Tokenizer.col self) c = Some (q', col') ->
  exists self',
    Tokenizer.step literal_eval true self c = Return self'
    /\ blank_inv q' self' /\ Tokenizer.col self' = col'.
Proof.
  intros Hinv Hs. unfold empty_step in Hs.
  destruct (Ascii.eqb c Re.SEMICOLON) eqn:Esemi;
    [|apply blank_step_scanner_mode with (q := q); assumption].
  apply Ascii.eqb_eq in Esemi. subst c.
  destruct Hinv as (Hk & Hl & Hq). unfold Tokenizer.step. cbn [negb andb].
  destruct self. cbn in Hk, Hl, Hq, Hs. subst. setters. fields.
  destruct q; simplify_eq; destruct Hq as [-> ->]; blank_close.
Qed.

Lemma empty_scan s : forall q self,
  blank_inv q self ->
  empty_from q (Tokenizer.col self) s = true ->
  exists self' q',
    Tokenizer.scan literal_eval true self s = Return self'
    /\ blank_inv q' self' /\ q' <> AfterSlash.
Proof.
  induction s as [|c s IH]; intros q self Hinv H; simpl in H.
  - exists self, q. split; [reflexivity|]. split; [exact Hinv|].
    destruct q; congruence.
  - destruct (empty_step q (Tokenizer.col self) c) as [[q1 col1]|] eqn:Es;
      [|discriminate].
    destruct (empty_step_scanner q self c q1 col1 Hinv Es)
      as (self1 & E1 & Hinv1 & Hcol).
    subst col1. destruct (IH q1 self1 Hinv1 H) as (self' & q' & E & Hq).
    exists self', q'. split; [|exact Hq]. simpl. rewrite E1. exact E.
Qed.

(** In statement mode a source made of white space, comments and
    semicolons outside a token gives the empty program: a semicolon with
    nothing before it ends no statement. *)
Theorem empty_source_empty_program self string line col :
  empty_source col string = true ->
  value (Tokenizer.parse literal_eval true self string line col)
  = Return (Tokenizer.Program []).
Proof.
  intros H. unfold Tokenizer.parse.
  destruct (empty_scan string Idle (Tokenizer.reset self line col))
    as (self' & q' & E & (Hk & Hl & Hq) & Hne).
  - repeat split.
  - exact H.
  - rewrite E. cbn [mbind result_bind]. destruct self'.
    cbn in Hk, Hl, Hq. subst.
    destruct q'; [|congruence|]; destruct Hq as [-> ->]; reflexivity.
Qed.

End Edges.

Lemma expression_with_semicolon_witness :
  Py.contains Re.SEMICOLON "f('a;b')" = true
  /\ exists e,
       value (Tokenizer.parse unquote false (fresh_object "g(f('a;b'));" "main.jmc")
                "f('a;b')" 1 2)
       = Raise e.
Proof.
  split; [reflexivity|].
  apply (expression_with_semicolon unquote
           (fresh_object "g(f('a;b'));" "main.jmc") "f('a;b')" 1 2).
  reflexivity.
Defined.

Lemma empty_source_empty_program_witness :
  let src := ";; // none;" +:+ NL +:+ "# also none" +:+ NL +:+ " ;" in
  empty_source 1 src = true
  /\ value (Tokenizer.parse unquote true (fresh_object src "main.jmc") src 1 1)
     = Return (Tokenizer.Program []).
Proof.
  split; [reflexivity|].
  apply (empty_source_empty_program unquote
           (fresh_object (";; // none;" +:+ NL +:+ "# also none" +:+ NL +:+ " ;")
              "main.jmc")
           (";; // none;" +:+ NL +:+ "# also none" +:+ NL +:+ " ;") 1 1).
  reflexivity.
Defined.

(** * Further properties of the argument parser *)

Section Arguments.

Variable literal_eval : string -> result Py.literal.

Lemma truthy_nonempty s : Py.truthy s = true -> s <> EmptyString.
Proof. destruct s; [discriminate|]. intros _. discriminate. Qed.

Lemma add_arg_inv self l token l' :
  Py.truthy (Tokenizer.arg l) = true ->
  args_inv l -> Tokenizer.add_arg self l token = Return l' -> args_inv l'.
Proof.
  intros Ht [Ha Hk] E. unfold Tokenizer.add_arg in E.
  destruct (negb _); [raises|]. simplify_eq. split; cbn; [|exact Hk].
  apply Forall_app. split; [exact Ha|].
  constructor; [|constructor]. cbn. apply truthy_nonempty, Ht.
Qed.

Lemma add_key_inv self l token l' :
  args_inv l -> Tokenizer.add_key self l token = Return l' -> args_inv l'.
Proof.
  intros [Ha Hk] E. unfold Tokenizer.add_key in E.
  apply bind_Return_inv in E as (k0 & E0 & E).
  destruct (Py.mem k0 _) eqn:Em;
    [destruct (Tokenizer.last_token l); [raises|discriminate]|].
  destruct (_ =? _)%string; [raises|].
  destruct (bool_decide _); [raises|].
  simplify_eq. split; cbn; [exact Ha|].
  apply map_Forall_insert_2; [|exact Hk].
  destruct (Tokenizer.key l) as [|c k]; [discriminate|].
  cbn in E0. simplify_eq. exact Em.
Qed.

Ltac inv_conv :=
  match goal with
  | H : args_inv _ |- args_inv _ => exact H
  end.

Ltac inv_step :=
  repeat first
    [ progress simplify_eq
    | raises
    | match goal with
      | E : Tokenizer.add_key _ _ _ = Return _ |- _ =>
          apply add_key_inv in E; [|solve [inv_conv]]
      | E : Tokenizer.add_arg _ _ _ = Return _ |- _ =>
          apply add_arg_inv in E; [|assumption|solve [inv_conv]]
      | H : mbind _ ?r = Return _ |- _ => destruct r eqn:?; simpl in H
      | H : (if ?b then _ else _) = _ |- _ => destruct b eqn:?
      | H : match ?x with _ => _ end = Return _ |- _ => destruct x eqn:?
      end ];
  try solve [inv_conv].

Lemma in_arrow_inv self l token r :
  args_inv l -> Tokenizer.in_arrow self l token = Return r ->
  args_inv (round_locals r).
Proof. intros H E. unfold Tokenizer.in_arrow in E. inv_step. Qed.

Lemma on_keyword_inv self l token l' :
  args_inv l -> Tokenizer.on_keyword self l token = Return l' ->
  args_inv l'.
Proof. intros H E. unfold Tokenizer.on_keyword in E. inv_step. Qed.

Lemma arg_step_inv self l token l' :
  args_inv l -> Tokenizer.arg_step self l token = Return l' -> args_inv l'.
Proof.
  intros H E. unfold Tokenizer.arg_step in E.
  apply bind_Return_inv in E as (r & Ea & E).
  apply in_arrow_inv in Ea; [|exact H].
  destruct r as [l0|l0]; [simplify_eq; exact Ea|]. simpl in Ea.
  apply bind_Return_inv in E as (l1 & E1 & E). simplify_eq.
  enough (args_inv l1) by assumption.
  destruct (Tokenizer.is_type token TokenType.keyword);
    [eapply on_keyword_inv, E1; exact Ea|].
  inv_step.
Qed.

Lemma arg_loop_inv self keywords : forall l token l' token',
  args_inv l ->
  Tokenizer.arg_loop self l token keywords = Return (l', token') ->
  args_inv l'.
Proof.
  induction keywords as [|tok rest IH]; intros l token l' token' H E;
    simpl in E.
  - simplify_eq. exact H.
  - apply bind_Return_inv in E as (l1 & E1 & E).
    eapply IH, E. eapply arg_step_inv, E1. exact H.
Qed.

Lemma parse_func_args_inv self token args kwargs self' :
  Tokenizer.parse_func_args literal_eval self token
  = Return ((args, kwargs), self') ->
  Forall (fun tok => Token.string tok <> EmptyString) args
  /\ map_Forall (fun k _ => key_ok k) kwargs.
Proof.
  unfold Tokenizer.parse_func_args. intros E.
  destruct (negb _); [raises|].
  apply bind_Return_inv in E as ([p s] & _ & E).
  destruct p as [|keywords]; [discriminate|].
  apply bind_Return_inv in E as ([l tok] & El & E).
  apply bind_Return_inv in E as (l1 & E1 & E). simplify_eq.
  apply arg_loop_inv in El; [|split; [constructor|apply map_Forall_empty]].
  enough (args_inv l1) as [? ?] by (split; assumption).
  destruct (Py.truthy _) eqn:Ht; [eapply add_arg_inv, E1; assumption|].
  simplify_eq. exact El.
Qed.

(** Every positional argument that [parse_func_args] returns has text: a
    value is committed as positional only when the staged text is not
    empty, so an empty string literal is never a positional argument. *)
Theorem positional_not_empty self token :
  Forall (fun tok => Token.string tok <> EmptyString)
    (positional (Tokenizer.parse_func_args literal_eval self token)).
Proof.
  destruct (Tokenizer.parse_func_args _ _ _) as [[[a k] s]|] eqn:E;
    [|constructor].
  apply parse_func_args_inv in E as [Ha _]. exact Ha.
Qed.


End Arguments.

Example empty_string_argument_dropped :
  call_args unquote "foo('', 1);"
  = Return ([Token.new (Some TokenType.keyword) 1 8 "1"], ∅).
Proof. vm_compute. reflexivity. Qed.

(** * Further properties of the class expander *)

Lemma rstrip_idempotent s : Py.rstrip (Py.rstrip s) = Py.rstrip s.
Proof.
  induction s as [|c s IH]; [reflexivity|]. simpl.
  destruct (Py.rstrip s) as [|d r] eqn:Er.
  - destruct (Py.isspace c) eqn:Ec; [reflexivity|]. simpl. rewrite Ec.
    reflexivity.
  - change (Py.rstrip (String c (String d r))) with
      (match Py.rstrip (String d r) with
       | EmptyString =>
           if Py.isspace c then EmptyString else String c EmptyString
       | String _ _ as r0 => String c r0
       end).
    rewrite IH. reflexivity.
Qed.

Lemma lstrip_head s :
  match Py.lstrip s with
  | EmptyString => True
  | String c _ => Py.isspace c = false
  end.
Proof.
  induction s as [|c s IH]; [exact I|]. simpl.
  destruct (Py.isspace c) eqn:Ec; [exact IH|exact Ec].
Qed.

Lemma rstrip_head s :
  match s with
  | EmptyString => True
  | String c _ => Py.isspace c = false
  end ->
  match Py.rstrip s with
  | EmptyString => True
  | String c _ => Py.isspace c = false
  end.
Proof.
  destruct s as [|c s]; [intros _; exact I|]. intros Hc. simpl.
  destruct (Py.rstrip s); [rewrite Hc|]; exact Hc.
Qed.

Lemma lstrip_fixed s :
  match s with
  | EmptyString => True
  | String c _ => Py.isspace c = false
  end ->
  Py.lstrip s = s.
Proof. destruct s as [|c s]; [reflexivity|]. simpl. intros ->. reflexivity. Qed.

Lemma strip_idempotent s : Py.strip (Py.strip s) = Py.strip s.
Proof.
  unfold Py.strip.
  rewrite (lstrip_fixed (Py.rstrip (Py.lstrip s))).
  - apply rstrip_idempotent.
  - apply rstrip_head, lstrip_head.
Qed.

Section ClassFurther.

Variable DataPack : Type.
Variable process_function :
  DataPack -> string -> string -> result (string * DataPack).
Variable space : ascii -> bool.
Variable word : ascii -> bool.
Variable bracket_group : string -> option (string * string).

(** What [process_class] returns is settled: it has no white space at
    either end, no class at its head, and [process_class] on it, under the
    same prefix, returns it again without a call of the function-level
    expander. *)
Theorem process_class_settled depth self line prefix text self' :
  Class.process_class DataPack process_function space word bracket_group depth
    self line prefix = Return (text, self') ->
  Py.strip text = text
  /\ Class.match_class space word bracket_group text = None
  /\ forall again,
       Class.process_class DataPack process_function space word bracket_group (S again)
         self' text prefix = Return (text, self').
Proof.
  revert self line. induction depth as [|depth IH]; intros self line E;
    [discriminate|].
  simpl in E. unfold Class.subn_class in E.
  destruct (Class.match_class space word bracket_group (Py.strip line))
    as [[[name body] rest]|] eqn:Em.
  - apply bind_Return_inv in E as ([[l n] s] & Es & E).
    apply bind_Return_inv in Es as ([r s1] & Ep & Es). simplify_eq.
    cbn [negb Nat.eqb] in E. eapply IH, E.
  - cbn [mbind result_bind negb Nat.eqb] in E. simplify_eq.
    assert (Hs := strip_idempotent line). split; [exact Hs|].
    split; [exact Em|]. intros again.
    simpl. unfold Class.subn_class. rewrite Hs, Em. reflexivity.
Qed.

End ClassFurther.

Lemma process_class_settled_witness :
  Class.process_class _ Class.recorder Class.white_space Class.word_character Class.match_bracket 3 []
    " class A { f } class B { g } rest " "p."
  = Return ("rest", [(" f ", "p.A."); (" g ", "p.B.")])
  /\ Py.strip "rest" = "rest"
  /\ Class.match_class Class.white_space Class.word_character Class.match_bracket "rest" = None
  /\ forall again,
       Class.process_class _ Class.recorder Class.white_space Class.word_character Class.match_bracket (S again)
         [(" f ", "p.A."); (" g ", "p.B.")] "rest" "p."
       = Return ("rest", [(" f ", "p.A."); (" g ", "p.B.")]).
Proof.
  split; [reflexivity|].
  apply (process_class_settled _ Class.recorder Class.white_space Class.word_character Class.match_bracket 3 []
           " class A { f } class B { g } rest " "p.").
  reflexivity.
Defined.

(** * A keyword on its own *)

Section Keyword.

Variable literal_eval : string -> result Py.literal.

Lemma add_char_append s c t : Py.add_char s c +:+ t = s +:+ String c t.
Proof.
  unfold Py.add_char. induction s as [|a s IH]; [reflexivity|].
  change (String a ((s +:+ String c EmptyString) +:+ t)
          = String a (s +:+ String c t)).
  rewrite IH. reflexivity.
Qed.

Lemma append_empty s : s +:+ EmptyString = s.
Proof.
  induction s as [|a s IH]; [reflexivity|].
  change (String a (s +:+ EmptyString) = String a s). rewrite IH. reflexivity.
Qed.

Lemma keyword_char_step expect_semicolon self c :
  Tokenizer.state self = Some TokenType.keyword ->
  Tokenizer.is_slash self = false ->
  keyword_char c = true ->
  Tokenizer.step literal_eval expect_semicolon self c
  = Return (Tokenizer.set_token (Py.add_char (Tokenizer.token self) c)
              (Tokenizer.set_col (Tokenizer.col self + 1) self)).
Proof.
  intros Hst Hsl Hc. unfold keyword_char in Hc.
  apply andb_prop in Hc as [Hm Hs]. apply negb_true_iff in Hm, Hs.
  assert (Hsemi : Ascii.eqb c Re.SEMICOLON = false).
  { destruct (Ascii.eqb_spec c Re.SEMICOLON); [subst; discriminate|reflexivity]. }
  assert (Hnl : Ascii.eqb c Re.NEW_LINE = false).
  { destruct (Ascii.eqb_spec c Re.NEW_LINE); [subst; discriminate|reflexivity]. }
  unfold Tokenizer.step, Tokenizer.in_keyword, Tokenizer.state_is.
  destruct self. cbn in Hst, Hsl. subst. setters. fields.
  rewrite Hsemi, Hnl, !andb_false_r. cbn [andb].
  rewrite bool_decide_eq_true_2 by reflexivity.
  rewrite Hm, Hs. reflexivity.
Qed.

Lemma keyword_chars_scan expect_semicolon w : forall self,
  Tokenizer.state self = Some TokenType.keyword ->
  Tokenizer.is_slash self = false ->
  Class.all_chars keyword_char w = true ->
  Tokenizer.scan literal_eval expect_semicolon self w
  = Return (Tokenizer.set_token (Tokenizer.token self +:+ w)
              (Tokenizer.set_col (Tokenizer.col self + Py.len w) self)).
Proof.
  induction w as [|c w IH]; intros self Hst Hsl Hw.
  - destruct self. setters. fields. unfold Py.len. cbn [String.length Z.of_nat].
    rewrite Z.add_0_r, append_empty. reflexivity.
  - simpl in Hw. apply andb_prop in Hw as [Hc Hw].
    simpl. rewrite (keyword_char_step _ self c Hst Hsl Hc).
    cbn [mbind result_bind]. rewrite IH; [|exact Hst|exact Hsl|exact Hw].
    destruct self. setters. fields. rewrite add_char_append.
    unfold Py.len. cbn [String.length].
    replace (col + 1 + Z.of_nat (String.length w))
      with (col + Z.of_nat (S (String.length w))) by lia.
    reflexivity.
Qed.

Lemma keyword_start_step expect_semicolon self c :
  Tokenizer.state self = None ->
  keyword_start c = true ->
  Tokenizer.step literal_eval expect_semicolon self c
  = Return
      (Tokenizer.set_is_slash false
         (Tokenizer.set_token (Py.add_char (Tokenizer.token self) c)
            (Tokenizer.set_token_pos
               (Some (Pos.Build (Tokenizer.line self) (Tokenizer.col self + 1)))
               (Tokenizer.set_state (Some TokenType.keyword)
                  (Tokenizer.set_col (Tokenizer.col self + 1) self))))).
Proof.
  intros Hst Hc. unfold keyword_start, keyword_char in Hc.
  apply andb_prop in Hc as [Hc Hm2]. apply andb_prop in Hc as [Hm Hs].
  apply negb_true_iff in Hm, Hm2, Hs.
  unfold Py.mem in Hm, Hm2. cbn [existsb] in Hm, Hm2.
  repeat match goal with
    | H : _ || _ = false |- _ => apply orb_false_elim in H as [? ?]
    end.
  assert (Hnl : Ascii.eqb c Re.NEW_LINE = false).
  { destruct (Ascii.eqb_spec c Re.NEW_LINE); [subst; discriminate|reflexivity]. }
  unfold Tokenizer.step, Tokenizer.in_keyword, Tokenizer.dispatch,
    Tokenizer.in_none, Tokenizer.state_is, Py.mem.
  destruct self. cbn in Hst. subst. setters. fields. cbn [existsb].
  repeat match goal with
    | H : Ascii.eqb c _ = false |- _ => rewrite H; clear H
    end.
  rewrite Hs, !andb_false_r. reflexivity.
Qed.

Lemma scan_append expect_semicolon a : forall self b,
  Tokenizer.scan literal_eval expect_semicolon self (a +:+ b)
  = Tokenizer.scan literal_eval expect_semicolon self a
    ≫= fun self => Tokenizer.scan literal_eval expect_semicolon self b.
Proof.
  induction a as [|c a IH]; intros self b; [reflexivity|].
  change (String c a +:+ b) with (String c (a +:+ b)). simpl.
  destruct (Tokenizer.step _ _ self c) as [s|]; [|reflexivity].
  cbn [mbind result_bind]. apply IH.
Qed.

Lemma keyword_scan expect_semicolon self c w rest line col :
  keyword_start c = true ->
  Class.all_chars keyword_char w = true ->
  Tokenizer.scan literal_eval expect_semicolon (Tokenizer.reset self line col)
    (String c w +:+ rest)
  = Tokenizer.scan literal_eval expect_semicolon
      (Tokenizer.set_token (String c w)
         (Tokenizer.set_token_pos (Some (Pos.Build line col))
            (Tokenizer.set_state (Some TokenType.keyword)
               (Tokenizer.set_col (col + Py.len w)
                  (Tokenizer.reset self line col)))))
      rest.
Proof.
  intros Hc Hw.
  change (String c w +:+ rest) with (String c (w +:+ rest)).
  cbn [Tokenizer.scan].
  rewrite keyword_start_step; [|reflexivity|exact Hc].
  cbn [mbind result_bind]. rewrite scan_append.
  rewrite keyword_chars_scan; [|reflexivity|reflexivity|exact Hw].
  cbn [mbind result_bind].
  match goal with
  | |- Tokenizer.scan _ _ ?a _ = Tokenizer.scan _ _ ?b _ =>
      assert (Heq : a = b); [|rewrite Heq; reflexivity]
  end.
  destruct self. unfold Tokenizer.reset. setters. fields.
  change (Py.add_char EmptyString c +:+ w) with (String c w).
  replace (col - 1 + 1) with col by lia. reflexivity.
Qed.

(** A keyword on its own comes back as it stands.  A text that starts with
    a keyword-opening character and goes on with keyword characters, slashes
    and closing brackets among them, is one keyword token with that text at
    the starting line and column: in statement mode when a semicolon
    follows, in expression mode when nothing follows. *)
Theorem keyword_alone self c w line col :
  keyword_start c = true ->
  Class.all_chars keyword_char w = true ->
  value (Tokenizer.parse literal_eval true self (String c w +:+ ";") line col)
  = Return (Tokenizer.Program
              [[Token.new (Some TokenType.keyword) line col (String c w)]])
  /\ value (Tokenizer.parse literal_eval false self (String c w) line col)
     = Return (Tokenizer.Statement
                 [Token.new (Some TokenType.keyword) line col (String c w)]).
Proof.
  intros Hc Hw. split.
  - unfold Tokenizer.parse. rewrite keyword_scan; [|exact Hc|exact Hw].
    destruct self. reflexivity.
  - unfold Tokenizer.parse.
    rewrite <- (append_empty (String c w)) at 1.
    rewrite keyword_scan; [|exact Hc|exact Hw].
    destruct self. reflexivity.
Qed.

End Keyword.

Lemma keyword_alone_witness :
  keyword_start "a" = true
  /\ Class.all_chars keyword_char "//b=)" = true
  /\ value (Tokenizer.parse unquote true (fresh_object "a//b=);" "main.jmc")
              ("a//b=)" +:+ ";") 3 7)
     = Return (Tokenizer.Program
                 [[Token.new (Some TokenType.keyword) 3 7 "a//b=)"]])
  /\ value (Tokenizer.parse unquote false (fresh_object "a//b=);" "main.jmc")
              "a//b=)" 3 7)
     = Return (Tokenizer.Statement
                 [Token.new (Some TokenType.keyword) 3 7 "a//b=)"]).
Proof.
  split; [reflexivity|]. split; [reflexivity|].
  apply (keyword_alone unquote (fresh_object "a//b=);" "main.jmc")
           "a"%char "//b=)" 3 7); reflexivity.
Defined.

(** * Tokens come in source order *)

Section Order.

Variable literal_eval : string -> result Py.literal.
Variable expect_semicolon : bool.

Ltac pos_lia :=
  unfold pos_rel, pos_lt, pos_le, position, Token.new in *;
  cbn [Pos.line Pos.col Token.line Token.col] in *;
  lia.

Lemma pos_rel_weaken strict p q : pos_rel true p q -> pos_rel strict p q.
Proof. destruct strict; pos_lia. Qed.

Lemma sorted_snoc l tok :
  StronglySorted token_before l ->
  Forall (fun t => pos_lt (position t) (position tok)) l ->
  StronglySorted token_before (l ++ [tok]).
Proof.
  intros Hs Hf. apply StronglySorted_app_2; [|exact Hs|repeat constructor].
  intros x1 x2 H1 H2. apply list_elem_of_singleton in H2. subst x2.
  rewrite Forall_forall in Hf. apply Hf, H1.
Qed.

Lemma ordered_weaken strict sts kws o cur :
  ordered true sts kws o cur -> ordered strict sts kws o cur.
Proof.
  intros [Hs Hb]. split; [exact Hs|]. destruct o as [p|].
  - destruct Hb as [Hf Hp]. split; [exact Hf|]. apply pos_rel_weaken, Hp.
  - eapply Forall_impl; [exact Hb|]. intros t. apply pos_rel_weaken.
Qed.

Lemma ordered_emit strict sts kws p cur k txt :
  ordered true sts kws (Some p) cur ->
  ordered strict sts
    (kws ++ [Token.new k (Pos.line p) (Pos.col p) txt]) None cur.
Proof.
  intros [Hs [Hf Hp]]. unfold ordered. rewrite app_assoc. split.
  - apply sorted_snoc; [exact Hs|].
    eapply Forall_impl; [exact Hf|]. intros t Ht. destruct p. exact Ht.
  - apply Forall_app. split.
    + eapply Forall_impl; [exact Hf|]. intros t Ht.
      apply pos_rel_weaken. destruct p.
      pos_lia.
    + constructor; [|constructor]. apply pos_rel_weaken. destruct p. pos_lia.
Qed.

Lemma ordered_emit_here sts kws line col k txt :
  ordered true sts kws None (Pos.Build line col) ->
  ordered false sts (kws ++ [Token.new k line col txt]) None
    (Pos.Build line col).
Proof.
  intros [Hs Hf]. unfold ordered. rewrite app_assoc. split.
  - apply sorted_snoc; [exact Hs|exact Hf].
  - apply Forall_app. split.
    + eapply Forall_impl; [exact Hf|]. intros t Ht. pos_lia.
    + constructor; [|constructor]. pos_lia.
Qed.

Lemma ordered_open sts kws cur :
  ordered true sts kws None cur -> ordered false sts kws (Some cur) cur.
Proof.
  intros [Hs Hf]. split; [exact Hs|]. split; [exact Hf|]. pos_lia.
Qed.

Lemma ordered_close strict sts kws p cur :
  ordered true sts kws (Some p) cur -> ordered strict sts kws None cur.
Proof.
  intros [Hs [Hf Hp]]. split; [exact Hs|].
  eapply Forall_impl; [exact Hf|]. intros t Ht. apply pos_rel_weaken.
  pos_lia.
Qed.

Lemma ordered_flush strict sts kws o cur :
  ordered strict sts kws o cur -> ordered strict (sts ++ [kws]) [] o cur.
Proof.
  unfold ordered. rewrite concat_app. cbn [concat].
  rewrite !app_nil_r. auto.
Qed.

Lemma ordered_new_line strict sts kws o line col :
  ordered strict sts kws o (Pos.Build line col) ->
  ordered false sts kws o (Pos.Build (line + 1) 0).
Proof.
  intros [Hs Hb]. split; [exact Hs|]. destruct o as [p|].
  - destruct Hb as [Hf Hp]. split; [exact Hf|]. destruct strict; pos_lia.
  - eapply Forall_impl; [exact Hb|]. intros t Ht. destruct strict; pos_lia.
Qed.

Lemma ordered_advance sts kws o line col :
  ordered false sts kws o (Pos.Build line col) ->
  ordered true sts kws o (Pos.Build line (col + 1)).
Proof.
  intros [Hs Hb]. split; [exact Hs|]. destruct o as [p|].
  - destruct Hb as [Hf Hp]. split; [exact Hf|]. pos_lia.
  - eapply Forall_impl; [exact Hb|]. intros t Ht. pos_lia.
Qed.

Lemma append_keywords_order strict self :
  order_inv strict self -> order_inv strict (Tokenizer.append_keywords self).
Proof.
  intros H. unfold Tokenizer.append_keywords.
  destruct (negb _); [|exact H]. apply ordered_flush in H. exact H.
Qed.

Lemma ordered_leave strict sts kws o cur :
  ordered true sts kws o cur -> ordered strict sts kws None cur.
Proof.
  destruct o as [p|]; [apply ordered_close|apply ordered_weaken].
Qed.

Ltac order_open self E :=
  destruct self;
  unfold Tokenizer.unescaped_line_break in E;
  unfold Tokenizer.append_token, Tokenizer.state_is in E;
  revert E; setters; fields; intros E.

Ltac order_cases :=
  repeat first
    [ progress simplify_eq
    | raises
    | match goal with
      | H : mbind _ ?r = Return _ |- _ =>
          destruct r eqn:?; cbn [mbind result_bind] in H
      | H : (if ?b then _ else _) = _ |- _ => destruct b eqn:?
      | H : match ?x with _ => _ end = Return _ |- _ => destruct x eqn:?
      end ].

Ltac read_in H :=
  cbn beta iota delta
    [ Tokenizer.raw_string Tokenizer.file_string Tokenizer.file_path
      Tokenizer.programs Tokenizer.line Tokenizer.col Tokenizer.state
      Tokenizer.token Tokenizer.token_pos Tokenizer.keywords
      Tokenizer.list_of_tokens Tokenizer.quote Tokenizer.is_escaped
      Tokenizer.paren Tokenizer.r_paren Tokenizer.paren_count
      Tokenizer.is_string Tokenizer.is_slash ] in H.

Ltac order_base :=
  match goal with
  | H : ordered _ _ _ _ _ |- _ =>
      first [ exact H
            | apply ordered_weaken; exact H
            | apply ordered_emit; exact H
            | apply ordered_emit_here; exact H
            | apply ordered_open; exact H
            | eapply ordered_leave; exact H ]
  end.

Ltac order_done :=
  repeat match goal with
    | H : bool_decide _ = true |- _ => apply bool_decide_eq_true in H
    | H : bool_decide _ = false |- _ => apply bool_decide_eq_false in H
    end;
  simplify_eq; cbn [flow_self];
  try match goal with
    | |- context [if ?b then _ else _] => destruct b
    end;
  try apply append_keywords_order;
  unfold order_inv, open_pos in *; fields;
  repeat match goal with
    | H : ordered _ _ _ _ _ |- _ => progress read_in H
    end;
  cbn beta iota;
  first [ order_base
        | eapply (ordered_new_line true); order_base
        | idtac ].

Lemma on_new_line_order self char self' :
  order_inv true self -> Tokenizer.on_new_line self char = Return self' ->
  order_inv false self'.
Proof.
  intros H E. unfold Tokenizer.on_new_line in E.
  order_open self E. order_cases; order_done.
Qed.

Lemma in_keyword_order self char f :
  order_inv true self -> Tokenizer.in_keyword self char = Return f ->
  order_inv true (flow_self f).
Proof.
  intros H E. unfold Tokenizer.in_keyword in E.
  order_open self E. order_cases; order_done.
Qed.

Lemma in_none_order self char f :
  Tokenizer.state self = None ->
  order_inv true self -> Tokenizer.in_none self char = Return f ->
  order_inv false (flow_self f).
Proof.
  intros Hs H E. unfold Tokenizer.in_none in E.
  order_open self E. cbn in Hs. subst. order_cases; order_done.
Qed.

Lemma in_string_order self char f :
  Tokenizer.state self = Some TokenType.string ->
  order_inv true self ->
  Tokenizer.in_string literal_eval self char = Return f ->
  order_inv false (flow_self f).
Proof.
  intros Hs H E. unfold Tokenizer.in_string in E.
  order_open self E. cbn in Hs. subst. order_cases; order_done.
Qed.

Lemma in_paren_order self char f :
  Tokenizer.state self = Some TokenType.paren ->
  order_inv true self ->
  Tokenizer.in_paren expect_semicolon self char = Return f ->
  order_inv false (flow_self f).
Proof.
  intros Hs H E. unfold Tokenizer.in_paren in E.
  order_open self E. cbn in Hs. subst. order_cases; order_done.
Qed.

Lemma dispatch_order self char f :
  order_inv true self ->
  Tokenizer.dispatch literal_eval expect_semicolon self char = Return f ->
  order_inv false (flow_self f).
Proof.
  intros H E. unfold Tokenizer.dispatch, Tokenizer.state_is in E.
  repeat case_bool_decide; simplify_eq;
    eauto using in_none_order, in_string_order, in_paren_order.
  apply ordered_weaken. exact H.
Qed.

Lemma step_order self char self' :
  order_inv false self ->
  Tokenizer.step literal_eval expect_semicolon self char = Return self' ->
  order_inv false self'.
Proof.
  intros H E. unfold Tokenizer.step in E.
  assert (H1 : order_inv true
                 (Tokenizer.set_col (Tokenizer.col self + 1) self)).
  { destruct self. apply ordered_advance. exact H. }
  clear H. revert H1 E.
  generalize (Tokenizer.set_col (Tokenizer.col self + 1) self).
  clear self. intros self H E.
  destruct (negb expect_semicolon && _); [raises|].
  destruct (_ =? Re.NEW_LINE)%char; [eapply on_new_line_order, E; exact H|].
  destruct (_ && _ && _).
  { simplify_eq. destruct self. unfold order_inv, open_pos in *.
    revert H. setters. fields. apply ordered_leave. }
  apply bind_Return_inv in E as (f & Ek & E).
  apply in_keyword_order in Ek; [|exact H].
  destruct f as [s|s]; [simplify_eq; apply ordered_weaken; exact Ek|].
  apply bind_Return_inv in E as (f & Ed & E).
  apply dispatch_order in Ed; [|exact Ek].
  destruct f; simplify_eq; exact Ed.
Qed.

Lemma scan_order string : forall self self',
  order_inv false self ->
  Tokenizer.scan literal_eval expect_semicolon self string = Return self' ->
  order_inv false self'.
Proof.
  induction string as [|char rest IH]; intros self self' H E; simpl in E.
  - simplify_eq. exact H.
  - apply bind_Return_inv in E as (s & Es & E).
    eapply IH, E. eapply step_order, Es. exact H.
Qed.

Lemma flush_order self self' :
  order_inv false self ->
  Tokenizer.flush expect_semicolon self = Return self' ->
  StronglySorted token_before (concat (Tokenizer.list_of_tokens self')).
Proof.
  intros H E.
  enough (Hs : StronglySorted token_before
                 (concat (Tokenizer.list_of_tokens self')
                  ++ Tokenizer.keywords self'))
    by (eapply StronglySorted_app_1_l; exact Hs).
  unfold Tokenizer.flush, Tokenizer.state_is in E.
  case_bool_decide as Hst; [|simplify_eq; apply H].
  apply bind_Return_inv in E as (s & Ea & E). simplify_eq.
  assert (Hs : StronglySorted token_before
                 (concat (Tokenizer.list_of_tokens s) ++ Tokenizer.keywords s)).
  { destruct (negb _); [|simplify_eq; apply H].
    unfold Tokenizer.append_token in Ea.
    destruct (Tokenizer.token_pos self) as [pos|] eqn:Ep; [|discriminate].
    simplify_eq. destruct self. unfold order_inv, open_pos in H.
    cbn in Hst, Ep. subst. setters. fields. read_in H. cbn beta iota in H.
    destruct H as [Hs [Hf _]]. rewrite app_assoc.
    apply sorted_snoc; [exact Hs|].
    eapply Forall_impl; [exact Hf|]. intros t Ht. destruct pos. exact Ht. }
  destruct (negb expect_semicolon); [|exact Hs].
  unfold Tokenizer.append_keywords. destruct (negb (Z.of_nat _ =? 0));
    [|exact Hs].
  cbn. rewrite concat_app. cbn [concat]. rewrite !app_nil_r. exact Hs.
Qed.

Lemma sorted_statement statements tokens :
  StronglySorted token_before (concat statements) ->
  In tokens statements ->
  StronglySorted token_before tokens.
Proof.
  induction statements as [|st sts IH]; intros Hs Hin; [destruct Hin|].
  cbn [concat] in Hs. destruct Hin as [-> | Hin].
  - eapply StronglySorted_app_1_l, Hs.
  - apply IH; [|exact Hin]. eapply StronglySorted_app_1_r, Hs.
Qed.

(** The tokens that [parse] emits, in either mode, stand in source order:
    each token carries a position strictly after the position of the token
    before it (a later line, or the same line and a later column), so no
    two tokens of a result share a position. *)
Theorem tokens_in_source_order self string line col :
  StronglySorted token_before
    (emitted (Tokenizer.parse literal_eval expect_semicolon self string line col)).
Proof.
  destruct (Tokenizer.parse _ _ _ _ _ _) as [[p s]|] eqn:E; [|constructor].
  unfold Tokenizer.parse, Tokenizer.finish in E.
  apply bind_Return_inv in E as (s0 & Es & E).
  apply bind_Return_inv in E as (s1 & Ef & E).
  apply bind_Return_inv in E as ([] & _ & E).
  apply bind_Return_inv in E as (q & Er & E). simplify_eq.
  apply scan_order in Es.
  2: { destruct self. split; [constructor|constructor]. }
  apply flush_order in Ef; [|exact Es].
  unfold Tokenizer.returned in Er. destruct expect_semicolon.
  - simplify_eq. exact Ef.
  - apply bind_Return_inv in Er as (first & Ei & Er). simplify_eq. cbn.
    apply index_In in Ei. eapply sorted_statement; eassumption.
Qed.

End Order.

(** * Expression mode and bracket tokens, as values of [parse] *)

(** In expression mode the statement that [parse] returns ends in a
    keyword token: a source that ends in a string, a bracket group or a
    comma is not returned. *)
Theorem expression_statement_ends_in_keyword
    (literal_eval : string -> result Py.literal) self string line col tokens :
  value (Tokenizer.parse literal_eval false self string line col)
  = Return (Tokenizer.Statement tokens) ->
  exists before last,
    tokens = (before ++ [last])%list
    /\ Token.token_type last = Some TokenType.keyword.
Proof.
  intros E.
  destruct (Tokenizer.parse literal_eval false self string line col)
    as [[p s]|] eqn:Ep; [|discriminate].
  cbn in E. simplify_eq.
  eapply expression_returns_after_keyword. exact Ep.
Qed.

Lemma expression_statement_ends_in_keyword_witness :
  value (Tokenizer.parse unquote false (fresh_object "f([1], x);" "main.jmc")
           "[1], x" 1 2)
  = Return (Tokenizer.Statement
              [Token.new (Some TokenType.paren_square) 1 2 "[1]";
               Token.new (Some TokenType.comma) 1 5 ",";
               Token.new (Some TokenType.keyword) 1 7 "x"])
  /\ exists before last,
       [Token.new (Some TokenType.paren_square) 1 2 "[1]";
        Token.new (Some TokenType.comma) 1 5 ",";
        Token.new (Some TokenType.keyword) 1 7 "x"]
       = (before ++ [last])%list
       /\ Token.token_type last = Some TokenType.keyword.
Proof.
  split; [reflexivity|].
  apply (expression_statement_ends_in_keyword unquote
           (fresh_object "f([1], x);" "main.jmc") "[1], x" 1 2).
  reflexivity.
Defined.

Lemma bracket_tokens_balanced_witness :
  plain "f({ 'a)' [b] }, (c));" = true
  /\ Forall (fun tok => well_bracketed tok = true)
       (emitted (Tokenizer.parse unquote true
                   (fresh_object "f({ 'a)' [b] }, (c));" "main.jmc")
                   "f({ 'a)' [b] }, (c));" 1 1)).
Proof.
  split; [reflexivity|].
  apply (bracket_tokens_balanced unquote true
           (fresh_object "f({ 'a)' [b] }, (c));" "main.jmc")
           "f({ 'a)' [b] }, (c));" 1 1).
  reflexivity.
Defined.

(** ** The exceptions of [parse] *)

Section Errors.

Variable literal_eval : string -> result Py.literal.
Variable expect_semicolon : bool.























End Errors.


(** ** The exceptions of [parse_func_args] *)

Section ArgumentErrors.

Variable literal_eval : string -> result Py.literal.














End ArgumentErrors.


(** The [NameError] is reached: after a comment inside a bracket group the
    text read so far opens the next keyword, so the key of the first
    argument starts with a bracket, and [add_key] reads [last_token] in
    the first round of the loop. *)
Example add_key_reads_unbound_last_token :
  value (Tokenizer.parse_func_args unquote
           (fresh_object ("f((x //" +:+ NL +:+ " y=1);") "main.jmc")
           (Token.new (Some TokenType.paren_round) 1 2
              ("((x //" +:+ NL +:+ " y=1)")))
  = Raise NameError.
Proof. reflexivity. Qed.

(** The [TypeError] is reached.  A comment inside a bracket group leaves the
    text of the group in [self.token]; the next string literal is decoded
    behind it, and [ast.literal_eval] reads a number in brackets with two
    comments.  [len] of the number raises in [Token.__post_init__]. *)
Example token_of_number :
  let source :=
    "( # '" +:+ NL +:+ "1) # //" +:+ NL +:+ "'x';" in
  let decoded := "( # '" +:+ NL +:+ "1) # 'x'" in
  value (Tokenizer.parse (unquote_but decoded Py.Scalar) true
           (fresh_object source "main.jmc") source 1 1)
  = Raise TypeError.
Proof. reflexivity. Qed.

(** ** The classes of the pattern, at two inputs *)

(** The separator 28 is white space for [str.strip] and not for [\s]: it
    does not stand between [class] and the name, and nothing is expanded. *)
Example class_after_separator :
  let line := "class" +:+ String (ascii_of_nat 28) "A{x}" in
  Class.process_class _ Class.recorder Class.white_space Class.word_character
    Class.match_bracket 2 [] line "p."
  = Return (line, []).
Proof. reflexivity. Qed.

(** A letter above 127 is a character of [\w]: the class whose name is the
    letter 233 is expanded. *)
Example class_with_letter_name :
  let name := String (ascii_of_nat 233) EmptyString in
  Class.process_class _ Class.recorder Class.white_space Class.word_character
    Class.match_bracket 2 [] ("class " +:+ name +:+ "{x}") "p."
  = Return (EmptyString, [("x", "p." +:+ name +:+ ".")]).
Proof. reflexivity. Qed.
